(** * sleep.py: sleep-night assignment, augmentation and file discovery

    A shallow embedding of [src/sleep.py].  Python's [datetime] values are
    records of integer fields, a cell of a datetime column is a value or
    NaT, exceptions are the left summand of a sum type, and the in-place
    updates of the caller's data frame are explicit state passing.

    The numeric columns are exact rationals ([Q]): the theorems about them
    hold in exact arithmetic.  The code computes them in binary64; where
    rounding makes the code differ from the exact value, the difference is
    shown on the float64 operations themselves ([Float64]). *)

From Stdlib Require Import Ascii String.
From Stdlib Require Floats.PrimFloat.
From Stdlib Require Import ZArith QArith Qfield List Bool Lia.
From Stdlib Require Import Sorting.Sorted Sorting.Permutation Setoid Morphisms.
Import ListNotations.

Local Open Scope Z_scope.

(** ** Exceptions *)

(** The exceptions the modelled code can raise.  [OverflowError] is raised
    by [datetime] arithmetic below [date.min]; [NotImplementedError] by
    [pd.Timestamp.date()] for a timestamp before 0001-01-01;
    [DateParseError] is the [ValueError] of [pd.to_datetime] for a string it
    cannot parse; [IndexError] comes from indexing a list. *)
Inductive exn : Type :=
| OverflowError
| NotImplementedError
| DateParseError
| IndexError.

Definition result (A : Type) : Type := (exn + A)%type.

Definition ret {A : Type} (a : A) : result A := inr a.
Definition raise {A : Type} (e : exn) : result A := inl e.

Definition bind {A B : Type} (c : result A) (k : A -> result B) : result B :=
  match c with
  | inl e => inl e
  | inr a => k a
  end.

Notation "x <- c ;; k" := (bind c (fun x => k))
  (at level 61, c at next level, right associativity).

(** ** Calendar dates, as in Python's [datetime] module *)

Module Calendar.

Record date : Type := mkdate { year : Z; month : Z; day : Z }.

Definition MINYEAR : Z := 1.
Definition MAXYEAR : Z := 9999.

Definition is_leap (y : Z) : bool :=
  (y mod 4 =? 0) && (negb (y mod 100 =? 0) || (y mod 400 =? 0)).

Definition DAYS_IN_MONTH (m : Z) : Z :=
  match m with
  | 1 => 31 | 2 => 28 | 3 => 31 | 4 => 30 | 5 => 31 | 6 => 30
  | 7 => 31 | 8 => 31 | 9 => 30 | 10 => 31 | 11 => 30 | 12 => 31
  | _ => 0
  end.

Definition DAYS_BEFORE_MONTH (m : Z) : Z :=
  match m with
  | 1 => 0 | 2 => 31 | 3 => 59 | 4 => 90 | 5 => 120 | 6 => 151
  | 7 => 181 | 8 => 212 | 9 => 243 | 10 => 273 | 11 => 304 | 12 => 334
  | _ => 0
  end.

Definition days_in_month (y m : Z) : Z :=
  if (m =? 2) && is_leap y then 29 else DAYS_IN_MONTH m.

Definition days_before_year (y : Z) : Z :=
  let y1 := y - 1 in y1 * 365 + y1 / 4 - y1 / 100 + y1 / 400.

Definition days_before_month (y m : Z) : Z :=
  DAYS_BEFORE_MONTH m + (if (2 <? m) && is_leap y then 1 else 0).

(** [date.toordinal()]: 0001-01-01 is day 1. *)
Definition toordinal (d : date) : Z :=
  days_before_year (year d) + days_before_month (year d) (month d) + day d.

Definition valid_date (d : date) : Prop :=
  MINYEAR <= year d <= MAXYEAR /\
  1 <= month d <= 12 /\
  1 <= day d <= days_in_month (year d) (month d).

Definition date_min : date := mkdate 1 1 1.

(** Comparison of dates is comparison of the (year, month, day) triples. *)
Definition date_eqb (a b : date) : bool :=
  (year a =? year b) && (month a =? month b) && (day a =? day b).

Definition date_ltb (a b : date) : bool :=
  (year a <? year b)
  || ((year a =? year b)
      && ((month a <? month b)
          || ((month a =? month b) && (day a <? day b)))).

Definition date_lt (a b : date) : Prop := date_ltb a b = true.

(** [d - timedelta(days=1)]: the calendar day before [d].  Python raises
    [OverflowError] when the result would fall before [date.min]. *)
Definition sub_one_day (d : date) : result date :=
  if 1 <? day d then
    ret (mkdate (year d) (month d) (day d - 1))
  else if 1 <? month d then
    ret (mkdate (year d) (month d - 1) (days_in_month (year d) (month d - 1)))
  else if MINYEAR <? year d then
    ret (mkdate (year d - 1) 12 31)
  else raise OverflowError.

End Calendar.
Import Calendar.

(** [datetime.datetime], with the fields the code reads.  The timestamps
    that pandas hands to [assign_sleep_day] are of its subclass
    [pd.Timestamp]. *)
Record Timestamp : Type := mkts {
  ts_date : date;
  hour : Z;
  minute : Z;
  second : Z
}.

Definition valid_timestamp (t : Timestamp) : Prop :=
  valid_date (ts_date t) /\
  0 <= hour t <= 23 /\ 0 <= minute t <= 59 /\ 0 <= second t <= 59.

(** ** assign_sleep_day *)

Definition assign_sleep_day (bedtime : Timestamp) (cutoff_hour : Z)
  : result date :=
  if (0 <=? hour bedtime) && (hour bedtime <? cutoff_hour) then
    sub_one_day (ts_date bedtime)
  else
    ret (ts_date bedtime).

(** The default value of the [cutoff_hour] argument. *)
Definition default_cutoff_hour : Z := 4.

(** ** Numeric columns *)

Definition TARGET_SLEEP : Q := 8.

(** [x < y] on numbers, as a boolean. *)
Definition Qltb (x y : Q) : bool :=
  (Qnum x * QDen y <? Qnum y * QDen x)%Z.

Definition Qsum (l : list Q) : Q := fold_right Qplus 0%Q l.

(** ** The data frame *)

(** One row of the loaded CSV file: the columns ["Start Time"] and
    ["Time Asleep(min)"]. *)
Record RawRow : Type := mkrow {
  Start_Time : string;
  Time_Asleep : Q
}.

(** The ["date"] column first holds the parsed timestamps (line 58), then
    the assigned sleep days (line 59).  A cell is a value or NaT ([None]). *)
Inductive DateColumn : Type :=
| Timestamps (ts : list (option Timestamp))
| Dates (ds : list (option date)).

(** The caller's data frame: the loaded rows and the two columns that
    [augment_data] assigns into it; [None] is an absent column. *)
Record DataFrame : Type := mkdf {
  rows : list RawRow;
  date_column : option DateColumn;
  sleep_hours_column : option (list Q)
}.

Definition set_date (df : DataFrame) (c : DateColumn) : DataFrame :=
  mkdf (rows df) (Some c) (sleep_hours_column df).

Definition set_sleep_hours (df : DataFrame) (c : list Q) : DataFrame :=
  mkdf (rows df) (date_column df) (Some c).

(** The frame returned by [augment_data], column by column.  Rolling
    columns are float columns that may hold NaN ([None]). *)
Record SleepFrame : Type := mksf {
  date_ : list date;
  sleep_hours : list Q;
  Sleep_Delta : list Q;
  rolling_14d_debt : list (option Q);
  color : list string;
  rolling_7d_sleep : list (option Q)
}.

(** ** pandas operations used by [augment_data] *)

(** [Series.apply] with a function that may raise. *)
Fixpoint apply {A B : Type} (f : A -> result B) (l : list A)
  : result (list B) :=
  match l with
  | [] => ret []
  | a :: l' =>
      b <- f a ;;
      bs <- apply f l' ;;
      ret (b :: bs)
  end.

(** [groupby("date", as_index=False)["sleep_hours"].sum()]: one pass over
    the rows that keeps the groups ordered by key and adds each value to the
    total of its key. *)
Fixpoint add_to_group (d : date) (h : Q) (groups : list (date * Q))
  : list (date * Q) :=
  match groups with
  | [] => [(d, h)]
  | (k, s) :: rest =>
      if date_ltb d k then (d, h) :: groups
      else if date_eqb d k then (k, (s + h)%Q) :: rest
      else (k, s) :: add_to_group d h rest
  end.

Definition add_row (g : list (date * Q)) (p : date * Q) : list (date * Q) :=
  add_to_group (fst p) (snd p) g.

(** [dropna=True], the default of [groupby]: rows whose key is NaT are left
    out of every group. *)
Fixpoint dropna (l : list (option date * Q)) : list (date * Q) :=
  match l with
  | [] => []
  | (Some d, h) :: l' => (d, h) :: dropna l'
  | (None, _) :: l' => dropna l'
  end.

Definition groupby_sum (ds : list (option date)) (hs : list Q)
  : list (date * Q) :=
  fold_left add_row (dropna (combine ds hs)) [].

(** [rolling(window, min_periods)]: a sliding accumulator.  Element [i]
    enters the window, element [i - window] leaves it; [nobs] counts the
    observations in the window and [sum_x] is their sum. *)
Fixpoint roll (window : nat) (xs : list Q) (i nobs : nat) (sum_x : Q)
  (rest : list Q) : list (nat * Q) :=
  match rest with
  | [] => []
  | x :: rest' =>
      let nobs1 := S nobs in
      let sum1 := (sum_x + x)%Q in
      let nobs2 := if (window <=? i)%nat then pred nobs1 else nobs1 in
      let sum2 :=
        if (window <=? i)%nat then (sum1 - nth (i - window) xs 0)%Q
        else sum1 in
      (nobs2, sum2) :: roll window xs (S i) nobs2 sum2 rest'
  end.

Definition rolling_sum (window min_periods : nat) (xs : list Q)
  : list (option Q) :=
  map (fun p => if (min_periods <=? fst p)%nat then Some (snd p) else None)
      (roll window xs 0 0 0%Q xs).

Definition rolling_mean (window min_periods : nat) (xs : list Q)
  : list (option Q) :=
  map (fun p =>
         if (min_periods <=? fst p)%nat
         then Some (snd p / inject_Z (Z.of_nat (fst p)))%Q
         else None)
      (roll window xs 0 0 0%Q xs).

(** ** augment_data *)

(** [df["Time Asleep(min)"] / 60]. *)
Definition hours_of (df : DataFrame) : list Q :=
  map (fun r => (Time_Asleep r / 60)%Q) (rows df).

(** What [pd.to_datetime(..., format="mixed")] makes of one cell: a
    timestamp, NaT for a blank cell, or an exception for a string that is no
    timestamp. *)
Inductive parsed : Type :=
| Parsed (t : Timestamp)
| Missing
| Invalid.

(** [assign_sleep_day] as pandas applies it to a cell of the column.  On
    NaT the attribute [hour] is nan, the comparison of line 24 is false and
    line 27 returns [NaT.date()], which is NaT.  On a [pd.Timestamp] whose
    shifted day would lie before 0001-01-01, [date()] raises
    NotImplementedError where the [datetime] of the signature raises
    OverflowError. *)
Definition assign_cell (c : option Timestamp) : result (option date) :=
  match c with
  | None => ret None
  | Some t =>
      match assign_sleep_day t default_cutoff_hour with
      | inl _ => raise NotImplementedError
      | inr d => ret (Some d)
      end
  end.

Section Augment.

(** The element parser of [pd.to_datetime(..., format="mixed")]. *)
Variable parse_datetime : string -> parsed.

Fixpoint to_datetime (l : list string) : result (list (option Timestamp)) :=
  match l with
  | [] => ret []
  | s :: l' =>
      match parse_datetime s with
      | Invalid => raise DateParseError
      | Missing =>
          ts <- to_datetime l' ;;
          ret (None :: ts)
      | Parsed t =>
          ts <- to_datetime l' ;;
          ret (Some t :: ts)
      end
  end.

(** Lines 65-71: the columns derived from the grouped frame [g], whose
    pairs are the ["date"] and ["sleep_hours"] of its rows. *)
Definition derive_columns (g : list (date * Q)) : SleepFrame :=
  let dates := map fst g in
  let hours := map snd g in
  (* df["Sleep Delta"] = df["sleep_hours"] - TARGET_SLEEP *)
  let delta := map (fun h => (h - TARGET_SLEEP)%Q) hours in
  (* (-df["Sleep Delta"]).rolling(14, min_periods=1).sum() *)
  let debt := rolling_sum 14 1 (map Qopp delta) in
  (* lambda x: "lightcoral" if x < TARGET_SLEEP else "lightgreen" *)
  let colors :=
    map (fun x => if Qltb x TARGET_SLEEP then "lightcoral"%string
                  else "lightgreen"%string) hours in
  (* df["sleep_hours"].rolling(7, min_periods=1).mean() *)
  let avg := rolling_mean 7 1 hours in
  mksf dates hours delta debt colors avg.

(** [augment_data df]: the state of the caller's frame after the call, and
    the returned frame or the exception raised.  Assignments into [df]
    before line 63 change the caller's frame; line 63 rebinds the local
    name to the new grouped frame. *)
Definition augment_data (df : DataFrame) : DataFrame * result SleepFrame :=
  (* df["date"] = pd.to_datetime(df["Start Time"], format="mixed") *)
  match to_datetime (map Start_Time (rows df)) with
  | inl e => (df, inl e)
  | inr ts =>
      let df := set_date df (Timestamps ts) in
      (* df["date"] = df["date"].apply(assign_sleep_day) *)
      match apply assign_cell ts with
      | inl e => (df, inl e)
      | inr ds =>
          let df := set_date df (Dates ds) in
          (* df["sleep_hours"] = df["Time Asleep(min)"] / 60 *)
          let hs := hours_of df in
          let df := set_sleep_hours df hs in
          (* df = df.groupby("date", as_index=False)["sleep_hours"].sum() *)
          (df, inr (derive_columns (groupby_sum ds hs)))
      end
  end.

(** The sleep days assigned to the rows of a frame (NaT for a row without
    start time), when no row is invalid and no day shift fails. *)
Definition assigned_dates (df : DataFrame) : result (list (option date)) :=
  ts <- to_datetime (map Start_Time (rows df)) ;;
  apply assign_cell ts.

End Augment.

(** ** get_file *)

(** [l[i]] on a Python list, for a non-negative index. *)
Definition getitem {A : Type} (l : list A) (i : nat) : result A :=
  match nth_error l i with
  | Some a => ret a
  | None => raise IndexError
  end.

Section Discovery.

(** [glob.glob] in the working directory: the paths that match a pattern,
    in the order the directory is scanned. *)
Variable glob : string -> list string.

Definition get_file (extension : string) : result string :=
  getitem (glob ("*." ++ extension)) 0.

End Discovery.

(** *** What [glob.glob] returns for a pattern without brackets *)

Fixpoint contains (c : ascii) (s : string) : bool :=
  match s with
  | EmptyString => false
  | String c' s' => Ascii.eqb c' c || contains c s'
  end.

(** [fnmatch] on a pattern in which only [*] and [?] are special: [*]
    stands for any run of characters, [?] for one character, and the whole
    name has to match. *)
Fixpoint wildcard_match (pattern name : string) : bool :=
  match pattern with
  | EmptyString =>
      match name with
      | EmptyString => true
      | String _ _ => false
      end
  | String c p =>
      if Ascii.eqb c "*" then
        (fix skip (s : string) : bool :=
           wildcard_match p s
           || match s with
              | EmptyString => false
              | String _ s' => skip s'
              end) name
      else
        match name with
        | EmptyString => false
        | String c' s' =>
            (Ascii.eqb c "?" || Ascii.eqb c c') && wildcard_match p s'
        end
  end.

Definition hidden (name : string) : bool := prefix "." name.

(** The names of a directory, in the order it is scanned, that [glob.glob]
    returns for a pattern without directory part: the names that match,
    and among them the hidden ones only when the pattern is hidden too. *)
Definition glob_listing (listing : list string) (pattern : string)
  : list string :=
  filter (fun name =>
            (hidden pattern || negb (hidden name))
            && wildcard_match pattern name)
         listing.

(** A pattern with no bracket expression and no directory part. *)
Definition plain (s : string) : bool :=
  negb (contains "[" s) && negb (contains "/" s).

(** An extension in which no character is special for [glob]. *)
Definition literal (s : string) : bool :=
  plain s && negb (contains "*" s) && negb (contains "?" s).

(** The entry [name] of the directory is found by [get_file extension]. *)
Definition found (extension name : string) : Prop :=
  hidden name = false /\ wildcard_match ("*." ++ extension) name = true.

(** ** Lines 60 and 63 in binary64 *)

Module Float64.
Import PrimFloat.

(** [df["Time Asleep(min)"] / 60] on one cell. *)
Definition hours (minutes : float) : float := (minutes / 60)%float.



End Float64.

(** ** plot_sleep_data *)

(** The part of a plotly figure that [plot_sleep_data] builds. *)
Module Plotly.

Inductive Trace : Type :=
| Bar (x : list date) (y : list Q) (marker_color : list string)
      (name : string)
| Scatter (x : list date) (y : list (option Q)) (mode : string)
          (line_color : string) (line_width : Z) (name : string).

Record HLine : Type := mkhline {
  hline_y : Q;
  line_dash : string;
  hline_color : string;
  hline_name : string
}.

Record Axis : Type := mkaxis {
  axis_title : string;
  overlaying : string;
  side : string
}.

Record Layout : Type := mklayout {
  title : string;
  xaxis_title : string;
  yaxis_title : string;
  yaxis2 : Axis;
  template : string;
  bargap : Q
}.

Record Figure : Type := mkfig {
  data : list Trace;
  hlines : list HLine;
  layout : option Layout
}.

(** [go.Figure()] *)
Definition new_figure : Figure := mkfig [] [] None.

Definition add_trace (fig : Figure) (t : Trace) : Figure :=
  mkfig (data fig ++ [t]) (hlines fig) (layout fig).

Definition add_hline (fig : Figure) (h : HLine) : Figure :=
  mkfig (data fig) (hlines fig ++ [h]) (layout fig).

Definition update_layout (fig : Figure) (l : Layout) : Figure :=
  mkfig (data fig) (hlines fig) (Some l).

Definition trace_x (t : Trace) : list date :=
  match t with
  | Bar x _ _ _ => x
  | Scatter x _ _ _ _ _ => x
  end.

(** The number of y values of a trace. *)
Definition trace_points (t : Trace) : nat :=
  match t with
  | Bar _ y _ _ => length y
  | Scatter _ y _ _ _ _ => length y
  end.

End Plotly.
Import Plotly.

(** What the program does to the outside world. *)
Inductive event : Type :=
| ReadCsv (path : string)
| Show (fig : Figure).

(** Lines 101-147: the figure that [plot_sleep_data] builds. *)
Definition sleep_figure (df : SleepFrame) : Figure :=
  let fig := new_figure in
  let fig :=
    add_trace fig (Bar (date_ df) (sleep_hours df) (color df) "Sleep Hours") in
  let fig :=
    add_hline fig (mkhline TARGET_SLEEP "dash" "orange" "Target Sleep") in
  let fig :=
    add_trace fig (Scatter (date_ df) (rolling_7d_sleep df) "lines" "blue" 2
                           "7-Day Avg Sleep") in
  let fig :=
    add_trace fig (Scatter (date_ df) (rolling_14d_debt df) "lines" "purple" 2
                           "14-Day Debt Window") in
  update_layout fig
    (mklayout "Sleep Debt Overview" "Date" "Hours"
              (mkaxis "Sleep Debt (Hours)" "y" "right")
              "plotly_white" (2 # 10)).

(** [plot_sleep_data df] builds the figure and shows it ([fig.show()]). *)
Definition plot_sleep_data (df : SleepFrame) : list event :=
  [Show (sleep_figure df)].

(** ** The script *)

Inductive script_error (E : Type) : Type :=
| Raised (e : exn)
| ReadError (e : E).
Arguments Raised {E} e.
Arguments ReadError {E} e.

Section Script.

Variable glob : string -> list string.

(** [pd.read_csv]: the frame loaded from a path, or the error raised. *)
Variable E : Type.
Variable read_csv : string -> E + DataFrame.

Variable parse_datetime : string -> parsed.

(** Lines 152-156: the events of a run, in order, and the error that ended
    it, if any. *)
Definition main : list event * option (script_error E) :=
  match get_file glob "csv" with
  | inl e => ([], Some (Raised e))
  | inr first_csv_file_found =>
      match read_csv first_csv_file_found with
      | inl e => ([ReadCsv first_csv_file_found], Some (ReadError e))
      | inr df =>
          match snd (augment_data parse_datetime df) with
          | inl e => ([ReadCsv first_csv_file_found], Some (Raised e))
          | inr df =>
              (ReadCsv first_csv_file_found :: plot_sleep_data df, None)
          end
      end
  end.

End Script.

(** ** Notions used in the statements about rows *)

(** The cell [c] that a returning call puts in the ["date"] column for the
    row [r]. *)
Definition row_assigned (parse_datetime : string -> parsed)
  (r : RawRow) (c : option date) : Prop :=
  match parse_datetime (Start_Time r) with
  | Parsed t =>
      exists d, assign_sleep_day t default_cutoff_hour = inr d /\ c = Some d
  | Missing => c = None
  | Invalid => False
  end.

(** ** Instances of the library parameters, for the examples *)

Module Examples.

Definition obind {A B : Type} (c : option A) (k : A -> option B) : option B :=
  match c with
  | Some a => k a
  | None => None
  end.

Definition digit (c : Ascii.ascii) : option Z :=
  let n := Z.of_nat (Ascii.nat_of_ascii c) in
  if (48 <=? n) && (n <=? 57) then Some (n - 48) else None.

(** Reads exactly [n] decimal digits. *)
Fixpoint number (n : nat) (acc : Z) (s : string) : option (Z * string) :=
  match n with
  | O => Some (acc, s)
  | S n' =>
      match s with
      | String c s' => obind (digit c) (fun v => number n' (acc * 10 + v) s')
      | EmptyString => None
      end
  end.

Definition expect (allowed : list Ascii.ascii) (s : string) : option string :=
  match s with
  | String c s' =>
      if existsb (Ascii.eqb c) allowed then Some s' else None
  | EmptyString => None
  end.

Definition valid_dateb (d : date) : bool :=
  (MINYEAR <=? year d) && (year d <=? MAXYEAR)
  && (1 <=? month d) && (month d <=? 12)
  && (1 <=? day d) && (day d <=? days_in_month (year d) (month d)).

Definition valid_timestampb (t : Timestamp) : bool :=
  valid_dateb (ts_date t)
  && (0 <=? hour t) && (hour t <=? 23)
  && (0 <=? minute t) && (minute t <=? 59)
  && (0 <=? second t) && (second t <=? 59).

(** The fields of the two layouts of the feed, [YYYY-MM-DD HH:MM:SS] and
    [YYYY-MM-DD HH:MM] (the date and the time separated by a space or a
    [T]). *)
Definition parse_fields (s : string) : option Timestamp :=
  obind (number 4 0 s) (fun '(y, s) =>
  obind (expect ["-"%char] s) (fun s =>
  obind (number 2 0 s) (fun '(m, s) =>
  obind (expect ["-"%char] s) (fun s =>
  obind (number 2 0 s) (fun '(d, s) =>
  obind (expect [" "%char; "T"%char] s) (fun s =>
  obind (number 2 0 s) (fun '(hh, s) =>
  obind (expect [":"%char] s) (fun s =>
  obind (number 2 0 s) (fun '(mm, s) =>
  obind (match s with
         | EmptyString => Some 0
         | _ => obind (expect [":"%char] s) (fun s =>
                obind (number 2 0 s) (fun '(ss, s) =>
                match s with EmptyString => Some ss | _ => None end))
         end) (fun ss =>
  let t := mkts (mkdate y m d) hh mm ss in
  if valid_timestampb t then Some t else None)))))))))).

(** A parser for the feed: a blank cell is missing, a string in one of the
    two layouts is a timestamp, anything else is invalid. *)
Definition parse_feed (s : string) : parsed :=
  if String.eqb s "" || String.eqb s "NaT" then Missing
  else
    match parse_fields s with
    | Some t => Parsed t
    | None => Invalid
    end.

(** The two examples of the specification. *)
Definition two_sessions : DataFrame :=
  mkdf [mkrow "2024-01-02T01:30:00" 120; mkrow "2024-01-01T23:00:00" 300]
       None None.

Definition one_session : DataFrame :=
  mkdf [mkrow "2024-01-05T22:00:00" 480] None None.

Definition bad_row : DataFrame :=
  mkdf [mkrow "2024-01-05 22:00" 480; mkrow "yesterday" 30;
        mkrow "2024-01-06 23:10:00" 400] None None.

Definition three_nights : DataFrame :=
  mkdf [mkrow "2024-03-02 23:15" 480; mkrow "2024-03-01 22:40:00" 420;
        mkrow "2024-03-04 00:20:00" 500; mkrow "2024-03-03 14:00" 40]
       None None.

Definition no_frame : SleepFrame := mksf [] [] [] [] [] [].

(** The frame a run returned, and the caller's frame after it. *)
Definition returned (run : DataFrame * result SleepFrame) : SleepFrame :=
  match snd run with
  | inr out => out
  | inl _ => no_frame
  end.

Definition two_sessions_out : SleepFrame :=
  Eval vm_compute in returned (augment_data parse_feed two_sessions).
Definition two_sessions_after : DataFrame :=
  Eval vm_compute in fst (augment_data parse_feed two_sessions).

Definition one_session_out : SleepFrame :=
  Eval vm_compute in returned (augment_data parse_feed one_session).
Definition one_session_after : DataFrame :=
  Eval vm_compute in fst (augment_data parse_feed one_session).

Definition three_nights_out : SleepFrame :=
  Eval vm_compute in returned (augment_data parse_feed three_nights).
Definition three_nights_after : DataFrame :=
  Eval vm_compute in fst (augment_data parse_feed three_nights).

End Examples.

Module MoreExamples.
Import Examples.

(** A frame whose second session has no start time. *)
Definition blank_start : DataFrame :=
  mkdf [mkrow "2024-01-05 22:00" 480; mkrow "" 30] None None.

Definition blank_start_out : SleepFrame :=
  Eval vm_compute in returned (augment_data parse_feed blank_start).
Definition blank_start_after : DataFrame :=
  Eval vm_compute in fst (augment_data parse_feed blank_start).

(** The rows of [three_nights] in another order. *)
Definition three_nights_shuffled : DataFrame :=
  mkdf [mkrow "2024-03-03 14:00" 40; mkrow "2024-03-04 00:20:00" 500;
        mkrow "2024-03-01 22:40:00" 420; mkrow "2024-03-02 23:15" 480]
       None None.

(** A directory and its files, for the script. *)
Definition listing : list string :=
  ["notes.txt"; "sleep.csv"; "old.csv"]%string.

Definition read_listing (path : string) : unit + DataFrame :=
  if String.eqb path "sleep.csv" then inr three_nights
  else if String.eqb path "old.csv" then inr bad_row
  else inl tt.

End MoreExamples.

(** ** Reference notions used in the statements *)

(** The trailing window ending at row [k]: the last [min window (k+1)]
    elements of rows [0..k]. *)
Definition trailing (window k : nat) {A : Type} (xs : list A) : list A :=
  firstn (Nat.min window (S k)) (skipn (S k - Nat.min window (S k)) xs).

(** The sum of the [min w i] elements just before index [i]. *)
Definition wsum (w i : nat) (xs : list Q) : Q :=
  Qsum (firstn (Nat.min w i) (skipn (i - Nat.min w i) xs)).




(** ** Facts about the calendar *)

Section CalendarFacts.

Lemma date_eqb_eq (a b : date) : date_eqb a b = true <-> a = b.
Proof.
  unfold date_eqb. destruct a as [ya ma da], b as [yb mb db]; simpl.
  rewrite !andb_true_iff, !Z.eqb_eq. split.
  - intros [[-> ->] ->]. reflexivity.
  - intros H. injection H as -> -> ->. auto.
Qed.


Lemma date_ltb_irrefl (a : date) : date_ltb a a = false.
Proof.
  unfold date_ltb. rewrite !Z.ltb_irrefl, !Z.eqb_refl. reflexivity.
Qed.

Lemma date_ltb_spec (a b : date) :
  date_ltb a b = true <->
  year a < year b \/
  (year a = year b /\ (month a < month b \/ (month a = month b /\ day a < day b))).
Proof.
  unfold date_ltb.
  rewrite !orb_true_iff, !andb_true_iff, !orb_true_iff, !andb_true_iff,
    !Z.ltb_lt, !Z.eqb_eq.
  tauto.
Qed.

Lemma date_ltb_trans (a b c : date) :
  date_ltb a b = true -> date_ltb b c = true -> date_ltb a c = true.
Proof. rewrite !date_ltb_spec. lia. Qed.

Lemma date_trichotomy (a b : date) :
  date_ltb a b = true \/ a = b \/ date_ltb b a = true.
Proof.
  rewrite !date_ltb_spec.
  destruct a as [ya ma da], b as [yb mb db]; simpl.
  destruct (Z.eq_dec ya yb) as [->|Hy]; [|lia].
  destruct (Z.eq_dec ma mb) as [->|Hm]; [|lia].
  destruct (Z.eq_dec da db) as [->|Hd]; [auto|lia].
Qed.

Lemma date_ltb_false_cases (a b : date) :
  date_ltb a b = false -> date_eqb a b = false -> date_ltb b a = true.
Proof.
  intros Hlt Heq.
  destruct (date_trichotomy a b) as [H|[H|H]]; auto.
  - congruence.
  - apply date_eqb_eq in H. congruence.
Qed.

Lemma days_before_year_succ (y : Z) :
  days_before_year (y + 1) =
  days_before_year y + 365 + (if is_leap y then 1 else 0).
Proof.
  unfold days_before_year, is_leap. cbv zeta.
  replace (y + 1 - 1) with y by lia.
  destruct (Z.eqb_spec (y mod 4) 0), (Z.eqb_spec (y mod 100) 0),
    (Z.eqb_spec (y mod 400) 0); simpl;
    Z.div_mod_to_equations; lia.
Qed.

Lemma days_in_month_pos (y m : Z) : 1 <= m <= 12 -> 28 <= days_in_month y m <= 31.
Proof.
  intros Hm. unfold days_in_month.
  assert (Hc : m = 1 \/ m = 2 \/ m = 3 \/ m = 4 \/ m = 5 \/ m = 6 \/ m = 7 \/
               m = 8 \/ m = 9 \/ m = 10 \/ m = 11 \/ m = 12) by lia.
  destruct (is_leap y);
    repeat (destruct Hc as [->|Hc]; [simpl; lia|]); subst; simpl; lia.
Qed.

Lemma days_before_month_succ (y m : Z) :
  1 <= m < 12 ->
  days_before_month y (m + 1) = days_before_month y m + days_in_month y m.
Proof.
  intros Hm. unfold days_before_month, days_in_month.
  assert (Hc : m = 1 \/ m = 2 \/ m = 3 \/ m = 4 \/ m = 5 \/ m = 6 \/ m = 7 \/
               m = 8 \/ m = 9 \/ m = 10 \/ m = 11) by lia.
  destruct (is_leap y);
    repeat (destruct Hc as [->|Hc]; [reflexivity|]); subst; reflexivity.
Qed.

(** The day computed by [sub_one_day] is a valid date whose ordinal is one
    less: it is the calendar day before. *)
Lemma sub_one_day_ordinal (d d' : date) :
  valid_date d -> sub_one_day d = inr d' ->
  valid_date d' /\ toordinal d' = toordinal d - 1.
Proof.
  unfold valid_date, sub_one_day, ret, raise, MINYEAR, MAXYEAR.
  destruct d as [y m dd]; simpl. intros (Hy & Hm & Hd).
  destruct (Z.ltb_spec 1 dd) as [Hd1|Hd1].
  { intros [= <-]. unfold toordinal; simpl. lia. }
  destruct (Z.ltb_spec 1 m) as [Hm1|Hm1].
  { intros [= <-]. unfold toordinal; simpl.
    pose proof (days_in_month_pos y (m - 1) ltac:(lia)) as Hp.
    pose proof (days_before_month_succ y (m - 1) ltac:(lia)) as Hs.
    replace (m - 1 + 1) with m in Hs by lia.
    repeat split; lia. }
  destruct (Z.ltb_spec 1 y) as [Hy1|Hy1]; [|discriminate].
  intros [= <-]. unfold toordinal; simpl.
  assert (m = 1) by lia. assert (dd = 1) by lia. subst m dd.
  pose proof (days_before_year_succ (y - 1)) as Hs.
  replace (y - 1 + 1) with y in Hs by lia.
  unfold days_before_month, days_in_month; simpl.
  destruct (is_leap (y - 1)); simpl; repeat split; lia.
Qed.

Lemma sub_one_day_overflow (d : date) :
  valid_date d -> (sub_one_day d = inl OverflowError <-> d = date_min).
Proof.
  unfold valid_date, sub_one_day, ret, raise, MINYEAR, MAXYEAR, date_min.
  destruct d as [y m dd]; simpl. intros (Hy & Hm & Hd).
  destruct (Z.ltb_spec 1 dd); [split; [discriminate|intros [= ]; lia]|].
  destruct (Z.ltb_spec 1 m); [split; [discriminate|intros [= ]; lia]|].
  destruct (Z.ltb_spec 1 y); [split; [discriminate|intros [= ]; lia]|].
  split; auto. intros _. f_equal; lia.
Qed.

Lemma sub_one_day_defined (d : date) :
  valid_date d -> d <> date_min -> exists d', sub_one_day d = inr d'.
Proof.
  intros Hv Hne. destruct (sub_one_day d) as [e|d'] eqn:E; eauto.
  exfalso. apply Hne. apply (sub_one_day_overflow d Hv).
  revert E. unfold sub_one_day, ret, raise.
  repeat match goal with |- context [if ?b then _ else _] => destruct b end;
    congruence.
Qed.

Lemma sub_one_day_lt (d d' : date) :
  valid_date d -> sub_one_day d = inr d' -> date_lt d' d.
Proof.
  unfold valid_date, sub_one_day, ret, raise, date_lt.
  destruct d as [y m dd]; simpl. intros (Hy & Hm & Hd).
  destruct (Z.ltb_spec 1 dd); [intros [= <-]; apply date_ltb_spec; simpl; lia|].
  destruct (Z.ltb_spec 1 m); [intros [= <-]; apply date_ltb_spec; simpl; lia|].
  destruct (Z.ltb_spec MINYEAR y); [|discriminate].
  intros [= <-]; apply date_ltb_spec; simpl; lia.
Qed.

Lemma days_before_year_grows (y n : Z) :
  0 <= n -> days_before_year y + 365 * n <= days_before_year (y + n).
Proof.
  intros Hn. revert n Hn. apply (natlike_ind (fun n =>
    days_before_year y + 365 * n <= days_before_year (y + n))).
  - cbv beta. replace (y + 0) with y by lia. lia.
  - cbv beta. intros n Hn IH. replace (y + Z.succ n) with (y + n + 1) by lia.
    rewrite days_before_year_succ. destruct (is_leap (y + n)); lia.
Qed.

Lemma days_before_month_grows (y m m' : Z) :
  1 <= m -> m < m' -> m' <= 12 ->
  days_before_month y m + days_in_month y m <= days_before_month y m'.
Proof.
  intros H1 Hlt H12.
  replace m' with (m + 1 + (m' - m - 1)) by lia.
  assert (Hk : 0 <= m' - m - 1) by lia.
  assert (Hb : m + 1 + (m' - m - 1) <= 12) by lia.
  revert Hk Hb. generalize (m' - m - 1). intros k Hk. revert k Hk.
  apply (natlike_ind (fun k =>
    m + 1 + k <= 12 ->
    days_before_month y m + days_in_month y m <= days_before_month y (m + 1 + k))).
  - cbv beta. intros _. replace (m + 1 + 0) with (m + 1) by lia.
    rewrite days_before_month_succ by lia. lia.
  - cbv beta. intros k Hk IH Hb.
    replace (m + 1 + Z.succ k) with (m + 1 + k + 1) by lia.
    rewrite days_before_month_succ by lia.
    pose proof (days_in_month_pos y (m + 1 + k) ltac:(lia)). lia.
Qed.

Lemma days_in_year (y : Z) :
  days_before_month y 12 + days_in_month y 12 =
  365 + (if is_leap y then 1 else 0).
Proof.
  unfold days_before_month, days_in_month. destruct (is_leap y); reflexivity.
Qed.

(** The ordinal of a valid date lies within its year. *)
Lemma toordinal_in_year (d : date) :
  valid_date d ->
  days_before_year (year d) < toordinal d <= days_before_year (year d + 1).
Proof.
  intros (Hy & Hm & Hd). unfold toordinal.
  rewrite days_before_year_succ.
  pose proof (days_in_year (year d)) as Hyear.
  assert (0 <= days_before_month (year d) (month d)).
  { destruct (Z.eq_dec (month d) 1) as [->|Hne].
    - unfold days_before_month. simpl. lia.
    - pose proof (days_before_month_grows (year d) 1 (month d)
                    ltac:(lia) ltac:(lia) ltac:(lia)).
      unfold days_before_month at 1, days_in_month in H. simpl in H. lia. }
  destruct (Z.eq_dec (month d) 12) as [E|Hne].
  - rewrite E in *. lia.
  - pose proof (days_before_month_grows (year d) (month d) 12
                  ltac:(lia) ltac:(lia) ltac:(lia)).
    pose proof (days_in_month_pos (year d) 12 ltac:(lia)). lia.
Qed.

(** [toordinal] is strictly increasing on valid dates: the order of dates
    is the order of days. *)
Lemma toordinal_lt (a b : date) :
  valid_date a -> valid_date b -> date_lt a b -> toordinal a < toordinal b.
Proof.
  intros Ha Hb Hlt. apply date_ltb_spec in Hlt.
  pose proof (toordinal_in_year a Ha) as Ia.
  pose proof (toordinal_in_year b Hb) as Ib.
  destruct Hlt as [Hy|[Hy [Hm|[Hm Hd]]]].
  - pose proof (days_before_year_grows (year a + 1) (year b - (year a + 1))
                  ltac:(lia)) as G.
    replace (year a + 1 + (year b - (year a + 1))) with (year b) in G by lia.
    lia.
  - destruct Ha as (_ & Hma & Hda), Hb as (_ & Hmb & Hdb).
    pose proof (days_before_month_grows (year a) (month a) (month b)
                  ltac:(lia) ltac:(lia) ltac:(lia)).
    unfold toordinal. rewrite <- Hy. lia.
  - unfold toordinal. rewrite Hy, Hm. lia.
Qed.

Lemma toordinal_inj (a b : date) :
  valid_date a -> valid_date b -> toordinal a = toordinal b -> a = b.
Proof.
  intros Ha Hb E. destruct (date_trichotomy a b) as [H|[H|H]]; auto.
  - pose proof (toordinal_lt a b Ha Hb H). lia.
  - pose proof (toordinal_lt b a Hb Ha H). lia.
Qed.

(** [sub_one_day] returns the one valid date whose ordinal is one less. *)
Lemma sub_one_day_unique (d d' : date) :
  valid_date d ->
  (sub_one_day d = inr d' <->
   valid_date d' /\ toordinal d' = toordinal d - 1).
Proof.
  intros Hv. split; [apply sub_one_day_ordinal, Hv|].
  intros [Hv' Hord].
  destruct (sub_one_day d) as [e|d''] eqn:E.
  - exfalso. assert (d = date_min).
    { apply (sub_one_day_overflow d Hv). revert E.
      unfold sub_one_day, ret, raise.
      repeat match goal with |- context [if ?b then _ else _] => destruct b end;
        congruence. }
    subst d. pose proof (toordinal_in_year d' Hv') as I.
    pose proof (days_before_year_grows 1 (year d' - 1)) as G.
    destruct Hv' as (Hy & _). unfold MINYEAR in Hy.
    replace (1 + (year d' - 1)) with (year d') in G by lia.
    change (toordinal date_min) with 1 in Hord.
    change (days_before_year 1) with 0 in G. lia.
  - f_equal. destruct (sub_one_day_ordinal d d'' Hv E) as [Hv'' Hord''].
    apply toordinal_inj; auto. lia.
Qed.

End CalendarFacts.

(** ** assign_sleep_day *)

Ltac solve_valid :=
  unfold valid_timestamp, valid_date; repeat split; vm_compute; discriminate.

Section AssignSleepDay.

Lemma assign_shifted (bedtime : Timestamp) (cutoff_hour : Z) :
  0 <= hour bedtime < cutoff_hour ->
  assign_sleep_day bedtime cutoff_hour = sub_one_day (ts_date bedtime).
Proof.
  intros [H0 H1]. unfold assign_sleep_day.
  apply Z.leb_le in H0. apply Z.ltb_lt in H1. rewrite H0, H1. reflexivity.
Qed.

Lemma assign_unshifted (bedtime : Timestamp) (cutoff_hour : Z) :
  hour bedtime < 0 \/ cutoff_hour <= hour bedtime ->
  assign_sleep_day bedtime cutoff_hour = inr (ts_date bedtime).
Proof.
  intros H. unfold assign_sleep_day.
  destruct (Z.leb_spec 0 (hour bedtime)), (Z.ltb_spec (hour bedtime) cutoff_hour);
    simpl; try reflexivity; lia.
Qed.

(** Whatever the cut-off, a successful call returns the timestamp's own date
    or the day before it. *)
Lemma assign_sleep_day_cases (bedtime : Timestamp) (cutoff_hour : Z) (d : date) :
  valid_timestamp bedtime ->
  assign_sleep_day bedtime cutoff_hour = inr d ->
  valid_date d /\
  (d = ts_date bedtime \/ toordinal d = toordinal (ts_date bedtime) - 1).
Proof.
  intros (Hv & _) H. unfold assign_sleep_day in H.
  destruct ((0 <=? hour bedtime) && (hour bedtime <? cutoff_hour)).
  - destruct (sub_one_day_ordinal _ _ Hv H). auto.
  - injection H as <-. auto.
Qed.

(** C1, amended: for a valid timestamp and a cut-off in [0,23], an hour in
    [0, cutoff_hour) gives the calendar date one day before the timestamp's
    date, except on 0001-01-01, where the subtraction raises OverflowError;
    an hour in [cutoff_hour, 23], the cut-off hour included, gives the
    timestamp's own date. *)
Theorem assign_sleep_day_cutoff (bedtime : Timestamp) (cutoff_hour : Z) :
  valid_timestamp bedtime ->
  0 <= cutoff_hour <= 23 ->
  (0 <= hour bedtime < cutoff_hour -> ts_date bedtime <> date_min ->
   exists d, assign_sleep_day bedtime cutoff_hour = inr d /\
             valid_date d /\
             toordinal d = toordinal (ts_date bedtime) - 1) /\
  (0 <= hour bedtime < cutoff_hour -> ts_date bedtime = date_min ->
   assign_sleep_day bedtime cutoff_hour = inl OverflowError) /\
  (cutoff_hour <= hour bedtime <= 23 ->
   assign_sleep_day bedtime cutoff_hour = inr (ts_date bedtime)).
Proof.
  intros Hv Hc. pose proof Hv as (Hd & _). split; [|split].
  - intros Hh Hne. destruct (sub_one_day_defined _ Hd Hne) as [d Hs].
    exists d. rewrite assign_shifted by assumption.
    split; [exact Hs|]. exact (sub_one_day_ordinal _ _ Hd Hs).
  - intros Hh Hmin. rewrite assign_shifted by assumption.
    apply sub_one_day_overflow; assumption.
  - intros Hh. apply assign_unshifted. lia.
Qed.

(** C1 at three inputs: 2024-01-02 01:30 is shifted to 2024-01-01,
    0001-01-01 01:00 overflows, and 2024-01-02 04:00 keeps its date. *)
Lemma assign_sleep_day_cutoff_witness :
  (exists d, assign_sleep_day (mkts (mkdate 2024 1 2) 1 30 0) 4 = inr d /\
             valid_date d /\
             toordinal d = toordinal (mkdate 2024 1 2) - 1) /\
  assign_sleep_day (mkts date_min 1 0 0) 4 = inl OverflowError /\
  assign_sleep_day (mkts (mkdate 2024 1 2) 4 0 0) 4 = inr (mkdate 2024 1 2).
Proof.
  split; [|split].
  - apply (assign_sleep_day_cutoff (mkts (mkdate 2024 1 2) 1 30 0) 4);
      [solve_valid | lia | simpl; lia | discriminate].
  - apply (assign_sleep_day_cutoff (mkts date_min 1 0 0) 4);
      [solve_valid | lia | simpl; lia | reflexivity].
  - apply (assign_sleep_day_cutoff (mkts (mkdate 2024 1 2) 4 0 0) 4);
      [solve_valid | lia | simpl; lia].
Defined.

(** C1 as stated fails on the first day of the calendar: the timestamp
    0001-01-01 01:00 is valid, its hour is below the cut-off 4, and no date
    is returned. *)
Lemma assign_sleep_day_date_min_raises :
  valid_timestamp (mkts date_min 1 0 0) /\
  0 <= 4 <= 23 /\
  0 <= hour (mkts date_min 1 0 0) < 4 /\
  ~ exists d, assign_sleep_day (mkts date_min 1 0 0) 4 = inr d.
Proof.
  split; [solve_valid|]. split; [lia|]. split; [simpl; lia|].
  intros [d H]. discriminate H.
Qed.

(** C7, amended: a cut-off outside [0,23] is not rejected.  A negative
    cut-off never shifts; a cut-off above 23 shifts every valid timestamp to
    the day before (OverflowError on 0001-01-01, as for any shift). *)
Theorem assign_sleep_day_cutoff_unchecked (bedtime : Timestamp) (cutoff_hour : Z) :
  valid_timestamp bedtime ->
  ~ (0 <= cutoff_hour <= 23) ->
  (cutoff_hour < 0 ->
   assign_sleep_day bedtime cutoff_hour = inr (ts_date bedtime)) /\
  (23 < cutoff_hour ->
   assign_sleep_day bedtime cutoff_hour = sub_one_day (ts_date bedtime) /\
   (ts_date bedtime <> date_min ->
    exists d, assign_sleep_day bedtime cutoff_hour = inr d /\
              toordinal d = toordinal (ts_date bedtime) - 1)).
Proof.
  intros Hv Hc. pose proof Hv as (Hd & Hh & _). split.
  - intros Hneg. apply assign_unshifted. lia.
  - intros Hbig.
    assert (E : assign_sleep_day bedtime cutoff_hour = sub_one_day (ts_date bedtime))
      by (apply assign_shifted; lia).
    split; [exact E|]. intros Hne.
    destruct (sub_one_day_defined _ Hd Hne) as [d Hs].
    exists d. rewrite E. split; [exact Hs|].
    apply (sub_one_day_ordinal _ _ Hd Hs).
Qed.

Lemma assign_sleep_day_cutoff_unchecked_witness :
  assign_sleep_day (mkts (mkdate 2024 1 5) 2 0 0) (-1) = inr (mkdate 2024 1 5) /\
  assign_sleep_day (mkts (mkdate 2024 1 5) 22 0 0) 24 =
    sub_one_day (mkdate 2024 1 5).
Proof.
  split.
  - apply (assign_sleep_day_cutoff_unchecked (mkts (mkdate 2024 1 5) 2 0 0) (-1));
      [solve_valid | lia | lia].
  - apply (assign_sleep_day_cutoff_unchecked (mkts (mkdate 2024 1 5) 22 0 0) 24);
      [solve_valid | lia | lia].
Defined.

(** C7 as stated fails: the cut-offs 24 and -1 are outside [0,23], and the
    function returns a date for each. *)
Lemma assign_sleep_day_accepts_bad_cutoff :
  ~ (0 <= 24 <= 23) /\ ~ (0 <= -1 <= 23) /\
  assign_sleep_day (mkts (mkdate 2024 1 5) 22 0 0) 24 = inr (mkdate 2024 1 4) /\
  assign_sleep_day (mkts (mkdate 2024 1 5) 2 0 0) (-1) = inr (mkdate 2024 1 5).
Proof. repeat split; try lia. Qed.

End AssignSleepDay.

(** ** Sums and sliding windows *)

Section Rolling.

Local Open Scope Q_scope.
Local Open Scope nat_scope.

Lemma Qsum_app (l1 l2 : list Q) : (Qsum (l1 ++ l2) == Qsum l1 + Qsum l2)%Q.
Proof.
  induction l1 as [|a l1 IH]; simpl.
  - ring.
  - rewrite IH. ring.
Qed.

Lemma Qsum_firstn_S (n : nat) (l : list Q) :
  (Qsum (firstn (S n) l) == Qsum (firstn n l) + nth n l 0)%Q.
Proof.
  revert l. induction n as [|n IH]; intros [|a l]; simpl; try ring.
  change (Qsum (firstn (S n) l)) with (Qsum (firstn (S n) l)).
  specialize (IH l). simpl in IH. rewrite IH. ring.
Qed.

(** Sliding a window of width [w] one place to the right: the element at
    [j] leaves and the element at [j + w] enters. *)
Lemma Qsum_window_slide (l : list Q) (j w : nat) :
  (Qsum (firstn w (skipn j l)) + nth (j + w) l 0 ==
   nth j l 0 + Qsum (firstn w (skipn (S j) l)))%Q.
Proof.
  revert j. induction l as [|a l IH]; intros j.
  - rewrite !skipn_nil, firstn_nil. destruct j, w; simpl; try ring;
      destruct (j + S w); ring.
  - destruct j as [|j].
    + cbn [skipn Nat.add]. destruct w as [|w].
      * simpl. ring.
      * pose proof (Qsum_firstn_S w l) as E.
        cbn [firstn nth Qsum fold_right] in *. unfold Qsum in *.
        rewrite E. ring.
    + cbn [skipn Nat.add nth]. apply IH.
Qed.

Lemma wsum_trailing (w k : nat) (xs : list Q) :
  wsum w (S k) xs = Qsum (trailing w k xs).
Proof. reflexivity. Qed.

Lemma wsum_step (w i : nat) (xs : list Q) :
  (wsum w (S i) xs ==
   if w <=? i then wsum w i xs + nth i xs 0 - nth (i - w) xs 0
   else wsum w i xs + nth i xs 0)%Q.
Proof.
  unfold wsum. destruct (Nat.leb_spec w i) as [Hle|Hlt].
  - rewrite !Nat.min_l by lia.
    replace (S i - w) with (S (i - w)) by lia.
    pose proof (Qsum_window_slide xs (i - w) w) as E.
    replace (i - w + w) with i in E by lia.
    rewrite E. ring.
  - rewrite !Nat.min_r by lia.
    replace (i - i) with 0 by lia. replace (S i - S i) with 0 by lia.
    cbn [skipn]. apply Qsum_firstn_S.
Qed.

Lemma skipn_cons_nth {A : Type} (i : nat) (xs : list A) (x a : A) (rest : list A) :
  skipn i xs = x :: rest -> nth i xs a = x /\ skipn (S i) xs = rest.
Proof.
  revert xs. induction i as [|i IH]; intros [|y xs] H; try discriminate.
  - injection H as -> ->. auto.
  - cbn [skipn] in H. destruct (IH xs H). auto.
Qed.

Lemma roll_length (w : nat) (xs rest : list Q) (i nobs : nat) (s : Q) :
  length (roll w xs i nobs s rest) = length rest.
Proof.
  revert i nobs s. induction rest as [|x rest IH]; intros; simpl; auto.
Qed.

(** The accumulator of [roll] holds the windowed sum and the number of rows
    in the window. *)
Lemma roll_spec (w : nat) (xs rest : list Q) :
  forall (i nobs : nat) (sum_x : Q),
    skipn i xs = rest ->
    nobs = Nat.min w i ->
    (sum_x == wsum w i xs)%Q ->
    forall k, k < length rest ->
      exists s,
        nth_error (roll w xs i nobs sum_x rest) k =
          Some (Nat.min w (S (i + k)), s) /\
        (s == wsum w (S (i + k)) xs)%Q.
Proof.
  induction rest as [|x rest IH]; intros i nobs sum_x Hskip Hn Hs k Hk.
  - simpl in Hk. lia.
  - destruct (skipn_cons_nth i xs x 0%Q rest Hskip) as [Hx Hrest].
    assert (Hn2 : (if w <=? i then pred (S nobs) else S nobs) = Nat.min w (S i)).
    { subst nobs. destruct (Nat.leb_spec w i); simpl; lia. }
    assert (Hs2 : ((if w <=? i then sum_x + x - nth (i - w) xs 0
                    else sum_x + x) == wsum w (S i) xs)%Q).
    { rewrite wsum_step, Hx. destruct (w <=? i); rewrite Hs; reflexivity. }
    cbn [roll]. cbv zeta. destruct k as [|k].
    + cbn [nth_error]. rewrite Nat.add_0_r, Hn2. eexists. split; [reflexivity|].
      exact Hs2.
    + cbn [nth_error]. replace (i + S k) with (S i + k) by lia.
      apply IH; auto. simpl in Hk. lia.
Qed.

Lemma wsum_0 (w : nat) (xs : list Q) : (wsum w 0 xs == 0)%Q.
Proof. unfold wsum. rewrite Nat.min_0_r. simpl. reflexivity. Qed.

Lemma trailing_length {A : Type} (w k : nat) (xs : list A) :
  k < length xs -> length (trailing w k xs) = Nat.min w (S k).
Proof.
  intros Hk. unfold trailing. rewrite length_firstn, length_skipn. lia.
Qed.

(** [rolling(w, min_periods=1).sum()] at row [k] is the sum of the trailing
    window. *)
Lemma rolling_sum_spec (w : nat) (xs : list Q) (k : nat) :
  1 <= w -> k < length xs ->
  exists s, nth_error (rolling_sum w 1 xs) k = Some (Some s) /\
            (s == Qsum (trailing w k xs))%Q.
Proof.
  intros Hw Hk.
  destruct (roll_spec w xs xs 0 0 0%Q eq_refl) with (k := k) as (s & Hnth & Hs);
    auto using Nat.min_0_r.
  { symmetry. apply wsum_0. }
  change (0 + k) with k in *.
  exists s. unfold rolling_sum. rewrite nth_error_map, Hnth. cbn [option_map fst snd].
  split; [|exact Hs].
  destruct (Nat.leb_spec 1 (Nat.min w (S k))); [reflexivity|lia].
Qed.

(** [rolling(w, min_periods=1).mean()] at row [k] is the sum of the trailing
    window divided by the number of rows in it. *)
Lemma rolling_mean_spec (w : nat) (xs : list Q) (k : nat) :
  1 <= w -> k < length xs ->
  exists m, nth_error (rolling_mean w 1 xs) k = Some (Some m) /\
            (m == Qsum (trailing w k xs) /
                  inject_Z (Z.of_nat (length (trailing w k xs))))%Q.
Proof.
  intros Hw Hk.
  destruct (roll_spec w xs xs 0 0 0%Q eq_refl) with (k := k) as (s & Hnth & Hs);
    auto using Nat.min_0_r.
  { symmetry. apply wsum_0. }
  change (0 + k) with k in *.
  eexists. unfold rolling_mean. rewrite nth_error_map, Hnth. cbn [option_map fst snd].
  split.
  - destruct (Nat.leb_spec 1 (Nat.min w (S k))); [reflexivity|lia].
  - rewrite trailing_length by assumption. rewrite Hs.
    reflexivity.
Qed.

End Rolling.

(** ** Grouping *)

Section GroupBy.

Local Open Scope Q_scope.

Lemma date_eqb_spec (a b : date) : reflect (a = b) (date_eqb a b).
Proof.
  destruct (date_eqb a b) eqn:E; constructor.
  - apply date_eqb_eq. exact E.
  - intros H. apply date_eqb_eq in H. congruence.
Qed.

Lemma date_lt_irrefl (a : date) : ~ date_lt a a.
Proof. unfold date_lt. rewrite date_ltb_irrefl. discriminate. Qed.

Lemma add_to_group_keys (d : date) (h : Q) (g : list (date * Q)) (k : date) :
  In k (map fst (add_to_group d h g)) <-> k = d \/ In k (map fst g).
Proof.
  induction g as [|[k0 s] g IH]; simpl.
  - intuition.
  - destruct (date_ltb d k0); [simpl; intuition|].
    destruct (date_eqb_spec d k0) as [->|Hne]; simpl; [intuition|].
    rewrite IH. intuition.
Qed.

Lemma add_to_group_sorted (d : date) (h : Q) (g : list (date * Q)) :
  StronglySorted date_lt (map fst g) ->
  StronglySorted date_lt (map fst (add_to_group d h g)).
Proof.
  induction g as [|[k0 s] g IH]; simpl; intros Hs.
  - repeat constructor.
  - inversion Hs as [|? ? Hs' Hall]; subst.
    destruct (date_ltb d k0) eqn:Hlt.
    + simpl. constructor; [exact Hs|].
      constructor; [exact Hlt|].
      rewrite Forall_forall in *. intros x Hx.
      apply (date_ltb_trans d k0 x Hlt). apply Hall, Hx.
    + destruct (date_eqb d k0) eqn:Heq; simpl; [exact Hs|].
      constructor; [apply IH, Hs'|].
      rewrite Forall_forall in *. intros x Hx.
      apply add_to_group_keys in Hx. destruct Hx as [->|Hx].
      * apply date_ltb_false_cases; assumption.
      * apply Hall, Hx.
Qed.



Lemma fold_add_keys (l g : list (date * Q)) (k : date) :
  In k (map fst (fold_left add_row l g)) <->
  In k (map fst l) \/ In k (map fst g).
Proof.
  revert g. induction l as [|[d h] l IH]; intros g; simpl.
  - intuition.
  - rewrite IH. unfold add_row. simpl. rewrite add_to_group_keys.
    intuition.
Qed.

Lemma fold_add_sorted (l g : list (date * Q)) :
  StronglySorted date_lt (map fst g) ->
  StronglySorted date_lt (map fst (fold_left add_row l g)).
Proof.
  revert g. induction l as [|[d h] l IH]; intros g Hs; simpl; auto.
  apply IH. apply add_to_group_sorted, Hs.
Qed.


Lemma sorted_NoDup (l : list date) : StronglySorted date_lt l -> NoDup l.
Proof.
  induction 1 as [|a l Hs IH Hall]; constructor; auto.
  intros Hin. rewrite Forall_forall in Hall.
  exact (date_lt_irrefl a (Hall a Hin)).
Qed.



Lemma groupby_sum_sorted (ds : list (option date)) (hs : list Q) :
  StronglySorted date_lt (map fst (groupby_sum ds hs)).
Proof. apply (fold_add_sorted (dropna (combine ds hs)) []). constructor. Qed.

(** The keys that [dropna] keeps are the cells that are not NaT. *)
Lemma dropna_keys (ds : list (option date)) (hs : list Q) (k : date) :
  length ds = length hs ->
  (In k (map fst (dropna (combine ds hs))) <-> In (Some k) ds).
Proof.
  revert hs. induction ds as [|[d|] ds IH]; intros [|h hs] Hlen;
    simpl in *; try discriminate.
  - tauto.
  - rewrite IH by lia. split; intros [H|H]; auto; left; congruence.
  - rewrite IH by lia. split; [auto|]. intros [H|H]; [discriminate|auto].
Qed.

Lemma groupby_sum_keys (ds : list (option date)) (hs : list Q) (k : date) :
  length ds = length hs ->
  (In k (map fst (groupby_sum ds hs)) <-> In (Some k) ds).
Proof.
  intros Hlen. unfold groupby_sum.
  rewrite fold_add_keys, dropna_keys by exact Hlen. simpl. tauto.
Qed.



End GroupBy.

(** ** augment_data *)

Section AugmentFacts.

Variable parse_datetime : string -> parsed.

Local Open Scope Q_scope.
Local Open Scope nat_scope.

Lemma to_datetime_length (l : list string) (ts : list (option Timestamp)) :
  to_datetime parse_datetime l = inr ts -> length ts = length l.
Proof.
  revert ts. induction l as [|s l IH]; intros ts; cbn [to_datetime].
  - intros [= <-]. reflexivity.
  - destruct (parse_datetime s); [| |discriminate];
      (destruct (to_datetime parse_datetime l) as [e|ts'];
       cbn [bind]; [discriminate|]);
      intros [= <-]; simpl; f_equal; apply IH; reflexivity.
Qed.

Lemma apply_length {A B : Type} (f : A -> result B) (l : list A) (bs : list B) :
  apply f l = inr bs -> length bs = length l.
Proof.
  revert bs. induction l as [|a l IH]; intros bs; simpl.
  - intros [= <-]. reflexivity.
  - destruct (f a); simpl; [discriminate|].
    destruct (apply f l); simpl; [discriminate|].
    intros [= <-]. simpl. f_equal. apply IH. reflexivity.
Qed.

Lemma apply_Forall2 {A B : Type} (f : A -> result B) (l : list A) (bs : list B) :
  apply f l = inr bs <-> Forall2 (fun a b => f a = inr b) l bs.
Proof.
  revert bs. induction l as [|a l IH]; intros bs; cbn [apply]; split.
  - intros [= <-]. constructor.
  - intros H. inversion H. reflexivity.
  - destruct (f a) as [e|b] eqn:Ea; [discriminate|]. cbn [bind].
    destruct (apply f l) as [e|bs'] eqn:El; [discriminate|]. cbn [bind].
    intros [= <-]. constructor; [exact Ea|]. apply IH. reflexivity.
  - intros H. inversion H as [|? b ? bs' Ha Hl]; subst. rewrite Ha. cbn [bind].
    apply IH in Hl. rewrite Hl. reflexivity.
Qed.

Lemma apply_raised {A B : Type} (f : A -> result B) (l : list A) (e : exn) :
  apply f l = inl e -> exists a, In a l /\ f a = inl e.
Proof.
  induction l as [|x l IH]; cbn [apply]; [discriminate|].
  destruct (f x) eqn:Ex; simpl.
  - intros [= <-]. exists x. auto.
  - destruct (apply f l); simpl; [|discriminate].
    intros [= <-]. destruct IH as (a & Hin & Ha); eauto.
Qed.

(** The only exception of the day shift on a column cell. *)
Lemma assign_cell_raises (c : option Timestamp) (e : exn) :
  assign_cell c = inl e -> e = NotImplementedError.
Proof.
  unfold assign_cell. destruct c as [t|]; [|discriminate].
  destruct (assign_sleep_day t default_cutoff_hour); [|discriminate].
  intros [= <-]. reflexivity.
Qed.

(** [pd.to_datetime] raises exactly when some cell is invalid, and then it
    raises the parse error. *)
Lemma to_datetime_raises (l : list string) (e : exn) :
  to_datetime parse_datetime l = inl e ->
  e = DateParseError /\ exists s, In s l /\ parse_datetime s = Invalid.
Proof.
  induction l as [|s l IH]; cbn [to_datetime]; [discriminate|].
  destruct (parse_datetime s) eqn:Es.
  - destruct (to_datetime parse_datetime l) as [e'|ts]; cbn [bind];
      [|discriminate].
    intros [= <-]. destruct IH as (-> & s' & Hin & Hs'); [reflexivity|].
    split; [reflexivity|]. exists s'. simpl. auto.
  - destruct (to_datetime parse_datetime l) as [e'|ts]; cbn [bind];
      [|discriminate].
    intros [= <-]. destruct IH as (-> & s' & Hin & Hs'); [reflexivity|].
    split; [reflexivity|]. exists s'. simpl. auto.
  - intros [= <-]. split; [reflexivity|]. exists s. simpl. auto.
Qed.

Lemma to_datetime_invalid (l : list string) (s : string) :
  In s l -> parse_datetime s = Invalid ->
  to_datetime parse_datetime l = inl DateParseError.
Proof.
  induction l as [|s0 l IH]; intros Hin Hs; [destruct Hin|].
  cbn [to_datetime]. destruct Hin as [->|Hin].
  - rewrite Hs. reflexivity.
  - destruct (parse_datetime s0); try reflexivity;
      rewrite (IH Hin Hs); reflexivity.
Qed.

Lemma to_datetime_Forall2 (l : list string) (ts : list (option Timestamp)) :
  to_datetime parse_datetime l = inr ts <->
  Forall2 (fun s c => match parse_datetime s with
                      | Parsed t => c = Some t
                      | Missing => c = None
                      | Invalid => False
                      end) l ts.
Proof.
  revert ts. induction l as [|s l IH]; intros ts; cbn [to_datetime]; split.
  - intros [= <-]. constructor.
  - intros H. inversion H. reflexivity.
  - destruct (parse_datetime s) as [t| |] eqn:Es; [| |discriminate];
      (destruct (to_datetime parse_datetime l) as [e|ts'] eqn:El;
       cbn [bind]; [discriminate|]);
      intros [= <-]; (constructor; [rewrite Es; reflexivity|]);
      apply IH; reflexivity.
  - intros H. inversion H as [|? c ? ts' Hs Hl]; subst.
    apply IH in Hl. rewrite Hl.
    destruct (parse_datetime s); [| |destruct Hs]; subst c; reflexivity.
Qed.

(** The assigned cells are computed row by row. *)
Lemma assigned_dates_rows (df : DataFrame) (ds : list (option date)) :
  assigned_dates parse_datetime df = inr ds <->
  Forall2 (row_assigned parse_datetime) (rows df) ds.
Proof.
  unfold assigned_dates, row_assigned. split.
  - destruct (to_datetime parse_datetime (map Start_Time (rows df)))
      as [e|ts] eqn:Ets; [discriminate|]. cbn [bind].
    apply to_datetime_Forall2 in Ets. intros Hds.
    apply apply_Forall2 in Hds. revert ts Ets ds Hds.
    induction (rows df) as [|r l IH]; intros ts Ets ds Hds.
    + inversion Ets; subst. inversion Hds. constructor.
    + inversion Ets as [|? c ? ts' Hc Hts]; subst.
      inversion Hds as [|? d ? ds' Hd Hds']; subst.
      constructor; [|eapply IH; eauto].
      unfold assign_cell in Hd.
      destruct (parse_datetime (Start_Time r)) as [t| |]; [| |destruct Hc];
        subst c.
      * destruct (assign_sleep_day t default_cutoff_hour) as [e|d0];
          [discriminate|].
        injection Hd as <-. eauto.
      * injection Hd as <-. reflexivity.
  - intros H.
    assert (G : exists ts,
               to_datetime parse_datetime (map Start_Time (rows df)) = inr ts /\
               apply assign_cell ts = inr ds).
    { induction H as [|r c l ds' Hr _ (ts & H1 & H2)].
      - exists []. split; reflexivity.
      - cbn [map to_datetime].
        destruct (parse_datetime (Start_Time r)) as [t| |]; [| |destruct Hr].
        + destruct Hr as (d & Hd & ->). exists (Some t :: ts).
          rewrite H1. cbn [bind apply assign_cell]. rewrite Hd, H2.
          split; reflexivity.
        + subst c. exists (None :: ts).
          rewrite H1. cbn [bind apply assign_cell]. rewrite H2.
          split; reflexivity. }
    destruct G as (ts & -> & H2). exact H2.
Qed.

(** What a successful call computes. *)
Lemma augment_success (df df' : DataFrame) (out : SleepFrame) :
  augment_data parse_datetime df = (df', inr out) ->
  exists ds,
    assigned_dates parse_datetime df = inr ds /\
    length ds = length (hours_of df) /\
    df' = mkdf (rows df) (Some (Dates ds)) (Some (hours_of df)) /\
    out = derive_columns (groupby_sum ds (hours_of df)).
Proof.
  unfold augment_data, assigned_dates, hours_of.
  destruct (to_datetime parse_datetime (map Start_Time (rows df)))
    as [e|ts] eqn:Ets; [discriminate|].
  simpl.
  destruct (apply assign_cell ts) as [e|ds] eqn:Eds; [discriminate|].
  intros [= <- <-]. exists ds. repeat split.
  apply apply_length in Eds. apply to_datetime_length in Ets.
  rewrite !length_map in *. congruence.
Qed.

Lemma augment_of_rows (df : DataFrame) (ds : list (option date)) :
  Forall2 (row_assigned parse_datetime) (rows df) ds ->
  augment_data parse_datetime df =
    (mkdf (rows df) (Some (Dates ds)) (Some (hours_of df)),
     inr (derive_columns (groupby_sum ds (hours_of df)))).
Proof.
  intros H. apply assigned_dates_rows in H. revert H.
  unfold assigned_dates, augment_data.
  destruct (to_datetime parse_datetime (map Start_Time (rows df)));
    [discriminate|]. cbn [bind].
  intros ->. reflexivity.
Qed.

(** The call returns a frame when every row is blank or parses to a valid
    timestamp after 0001-01-01. *)
Lemma augment_returns (df : DataFrame) :
  (forall r, In r (rows df) ->
     parse_datetime (Start_Time r) = Missing \/
     exists t, parse_datetime (Start_Time r) = Parsed t /\
               valid_timestamp t /\ ts_date t <> date_min) ->
  exists df' out, augment_data parse_datetime df = (df', inr out).
Proof.
  intros Hrows.
  assert (G : exists ds, Forall2 (row_assigned parse_datetime) (rows df) ds).
  { induction (rows df) as [|r l IH].
    - exists []. constructor.
    - destruct (IH (fun r' H => Hrows r' (or_intror H))) as [ds Hds].
      destruct (Hrows r (or_introl eq_refl)) as [Hm|(t & Ht & Hv & Hne)].
      + exists (None :: ds). constructor; [|exact Hds].
        unfold row_assigned. rewrite Hm. reflexivity.
      + assert (Hd : exists d, assign_sleep_day t default_cutoff_hour = inr d).
        { unfold assign_sleep_day.
          destruct ((0 <=? hour t)%Z && (hour t <? default_cutoff_hour)%Z).
          - apply sub_one_day_defined; [apply Hv|exact Hne].
          - eexists. reflexivity. }
        destruct Hd as [d Hd]. exists (Some d :: ds).
        constructor; [|exact Hds]. unfold row_assigned. rewrite Ht. eauto. }
  destruct G as [ds Hds]. rewrite (augment_of_rows df ds Hds). eauto.
Qed.

Lemma derive_columns_dates (g : list (date * Q)) :
  date_ (derive_columns g) = map fst g.
Proof. reflexivity. Qed.

Lemma derive_columns_hours (g : list (date * Q)) :
  sleep_hours (derive_columns g) = map snd g.
Proof. reflexivity. Qed.


Lemma Qltb_lt (x y : Q) : Qltb x y = true <-> (x < y)%Q.
Proof. unfold Qltb, Qlt. apply Z.ltb_lt. Qed.


(** The trailing window of row [k] holds the rows [k+1-n .. k], where
    [n = min window (k+1)]. *)
Lemma trailing_nth {A : Type} (w k j : nat) (xs : list A) :
  j < Nat.min w (S k) ->
  nth_error (trailing w k xs) j =
  nth_error xs (S k - Nat.min w (S k) + j).
Proof.
  intros Hj. unfold trailing.
  rewrite nth_error_firstn.
  destruct (Nat.ltb_spec j (Nat.min w (S k))); [|lia].
  apply nth_error_skipn.
Qed.





(** C5: when a call returns, the dates of the returned frame are strictly
    ascending, hence without duplicates, and they are exactly the dates
    assigned to the raw rows. *)
Theorem augment_dates_sorted_distinct (df df' : DataFrame) (out : SleepFrame) :
  augment_data parse_datetime df = (df', inr out) ->
  exists ds,
    assigned_dates parse_datetime df = inr ds /\
    StronglySorted date_lt (date_ out) /\
    NoDup (date_ out) /\
    (forall d, In d (date_ out) <-> In (Some d) ds).
Proof.
  intros H. destruct (augment_success _ _ _ H) as (ds & Hds & Hlen & _ & ->).
  exists ds. rewrite derive_columns_dates.
  pose proof (groupby_sum_sorted ds (hours_of df)) as Hs.
  repeat split; auto using sorted_NoDup; apply groupby_sum_keys; assumption.
Qed.



(** C6: the colour of a row is "lightcoral" (below target) exactly when its
    sleep_hours is less than TARGET_SLEEP and "lightgreen" otherwise; a row
    with sleep_hours equal to TARGET_SLEEP is "lightgreen". *)
Theorem augment_color (df df' : DataFrame) (out : SleepFrame) (k : nat) (h : Q) :
  augment_data parse_datetime df = (df', inr out) ->
  nth_error (sleep_hours out) k = Some h ->
  exists c,
    nth_error (color out) k = Some c /\
    (c = "lightcoral"%string <-> (h < TARGET_SLEEP)%Q) /\
    (c = "lightgreen"%string <-> ~ (h < TARGET_SLEEP)%Q) /\
    ((h == TARGET_SLEEP)%Q -> c = "lightgreen"%string).
Proof.
  intros H Hh. destruct (augment_success _ _ _ H) as (ds & _ & _ & _ & ->).
  rewrite derive_columns_hours in Hh.
  unfold derive_columns. cbn [color].
  rewrite nth_error_map, Hh. cbn [option_map].
  eexists. split; [reflexivity|].
  pose proof (Qltb_lt h TARGET_SLEEP) as Hlt.
  destruct (Qltb h TARGET_SLEEP).
  - assert (h < TARGET_SLEEP)%Q by (apply Hlt; reflexivity).
    repeat split; auto; try discriminate.
    + intros Hn. contradiction.
    + intros Heq. rewrite Heq in H0. exfalso. exact (Qlt_irrefl _ H0).
  - assert (~ (h < TARGET_SLEEP)%Q) by (intros Hc; apply Hlt in Hc; discriminate).
    repeat split; auto; try discriminate. intros Hc. contradiction.
Qed.

(** C8, amended: when some row's start time is a string that is no
    timestamp, the call raises the parse error of pd.to_datetime, returns
    no frame, and leaves the caller's frame as it was; the call raises that
    error in no other case.  A row without start time is no error: when the
    call returns, its cell of the "date" column is NaT. *)
Theorem augment_parse_failure (df : DataFrame) :
  ((exists r, In r (rows df) /\ parse_datetime (Start_Time r) = Invalid) ->
   augment_data parse_datetime df = (df, inl DateParseError)) /\
  (snd (augment_data parse_datetime df) = inl DateParseError ->
   exists r, In r (rows df) /\ parse_datetime (Start_Time r) = Invalid) /\
  (forall df' out,
     augment_data parse_datetime df = (df', inr out) ->
     exists ds,
       date_column df' = Some (Dates ds) /\
       forall i r, nth_error (rows df) i = Some r ->
                   parse_datetime (Start_Time r) = Missing ->
                   nth_error ds i = Some None).
Proof.
  split; [|split].
  - intros (r & Hin & Hr). unfold augment_data.
    rewrite (to_datetime_invalid (map Start_Time (rows df)) (Start_Time r));
      [reflexivity | apply in_map; exact Hin | exact Hr].
  - unfold augment_data.
    destruct (to_datetime parse_datetime (map Start_Time (rows df)))
      as [e|ts] eqn:Ets.
    + intros _. destruct (to_datetime_raises _ _ Ets) as (_ & s & Hin & Hs).
      apply in_map_iff in Hin. destruct Hin as (r & <- & Hr). eauto.
    + cbn [snd]. destruct (apply assign_cell ts) as [e|ds] eqn:Eds;
        cbn [snd]; [|discriminate].
      intros [= ->]. destruct (apply_raised _ _ _ Eds) as (c & _ & Hc).
      apply assign_cell_raises in Hc. discriminate.
  - intros df' out H.
    destruct (augment_success _ _ _ H) as (ds & Hds & _ & -> & _).
    exists ds. split; [reflexivity|].
    apply assigned_dates_rows in Hds. clear H.
    induction Hds as [|r0 c l ds' Hr _ IH]; intros i r Hi Hm.
    + destruct i; discriminate.
    + destruct i as [|i]; cbn [nth_error] in *.
      * injection Hi as <-. unfold row_assigned in Hr. rewrite Hm in Hr.
        subst c. reflexivity.
      * eapply IH; eauto.
Qed.

(** C10: a call that returns has changed the caller's frame: its rows are
    kept, its "date" column holds the assigned dates and its "sleep_hours"
    column holds minutes_asleep / 60, row by row; a frame that lacked one of
    the two columns is therefore not left unchanged. *)
Theorem augment_mutates_argument (df df' : DataFrame) (out : SleepFrame) :
  augment_data parse_datetime df = (df', inr out) ->
  exists ds,
    assigned_dates parse_datetime df = inr ds /\
    length ds = length (rows df) /\
    rows df' = rows df /\
    date_column df' = Some (Dates ds) /\
    sleep_hours_column df' =
      Some (map (fun r => (Time_Asleep r / 60)%Q) (rows df)) /\
    (date_column df = None \/ sleep_hours_column df = None -> df' <> df).
Proof.
  intros H. destruct (augment_success _ _ _ H) as (ds & Hds & Hlen & -> & _).
  exists ds. unfold hours_of in Hlen. rewrite length_map in Hlen.
  repeat split; auto.
  intros [Hn|Hn] E; rewrite <- E in Hn; discriminate.
Qed.

End AugmentFacts.

(** ** get_file *)

Section WildcardFacts.

Lemma wildcard_star (p s : string) :
  wildcard_match (String "*" p) s =
  wildcard_match p s
  || match s with
     | EmptyString => false
     | String _ s' => wildcard_match (String "*" p) s'
     end.
Proof. destruct s; reflexivity. Qed.

(** A pattern without special characters matches itself only. *)
Lemma wildcard_same (p s : string) :
  contains "*" p = false -> contains "?" p = false ->
  wildcard_match p s = String.eqb p s.
Proof.
  revert s. induction p as [|c p IH]; intros s Hs Hq.
  - destruct s; reflexivity.
  - cbn [contains] in Hs, Hq.
    apply orb_false_iff in Hs. destruct Hs as [Hs1 Hs2].
    apply orb_false_iff in Hq. destruct Hq as [Hq1 Hq2].
    cbn [wildcard_match]. rewrite Hs1.
    destruct s as [|c' s]; [reflexivity|].
    rewrite Hq1, IH by assumption. reflexivity.
Qed.

(** [*] followed by a pattern without special characters matches the names
    that end with it. *)
Lemma wildcard_suffix (p s : string) :
  contains "*" p = false -> contains "?" p = false ->
  (wildcard_match (String "*" p) s = true <->
   exists stem, s = (stem ++ p)%string).
Proof.
  intros Hs Hq. induction s as [|c s IH]; rewrite wildcard_star.
  - rewrite orb_false_r, wildcard_same by assumption. split.
    + intros H. apply String.eqb_eq in H. subst p. exists ""%string.
      reflexivity.
    + intros [stem H]. destruct stem; [|discriminate].
      simpl in H. subst p. reflexivity.
  - rewrite wildcard_same by assumption. split.
    + intros H. apply orb_true_iff in H. destruct H as [H|H].
      * apply String.eqb_eq in H. exists ""%string. simpl. auto.
      * apply IH in H. destruct H as [stem ->].
        exists (String c stem). reflexivity.
    + intros [stem H]. apply orb_true_iff. destruct stem as [|c0 stem].
      * left. apply String.eqb_eq. simpl in H. auto.
      * right. apply IH. simpl in H. injection H as _ ->. eauto.
Qed.

Lemma filter_head {A : Type} (f : A -> bool) (l : list A) (x : A) :
  (exists rest, filter f l = x :: rest) <->
  exists before after,
    l = before ++ x :: after /\ f x = true /\
    forall q, In q before -> f q = false.
Proof.
  induction l as [|a l IH]; simpl.
  - split.
    + intros [rest H]. discriminate.
    + intros (before & after & H & _). destruct before; discriminate.
  - destruct (f a) eqn:Ea; split.
    + intros [rest H]. injection H as -> _.
      exists [], l. simpl. repeat split; auto. intros q [].
    + intros (before & after & H & Hx & Hb).
      destruct before as [|b before]; simpl in H; injection H as -> H.
      * eauto.
      * rewrite (Hb b (or_introl eq_refl)) in Ea. discriminate.
    + intros H. apply IH in H. destruct H as (before & after & -> & Hx & Hb).
      exists (a :: before), after. simpl. repeat split; auto.
      intros q [<-|Hq]; auto.
    + intros (before & after & H & Hx & Hb).
      destruct before as [|b before]; simpl in H; injection H as -> H.
      * congruence.
      * apply IH. exists before, after. repeat split; auto.
        intros q Hq. apply Hb. right. exact Hq.
Qed.

Lemma filter_nil {A : Type} (f : A -> bool) (l : list A) :
  filter f l = [] <-> forall q, In q l -> f q = false.
Proof.
  induction l as [|a l IH]; simpl.
  - split; auto. intros _ q [].
  - destruct (f a) eqn:Ea; split.
    + discriminate.
    + intros H. rewrite (H a (or_introl eq_refl)) in Ea. discriminate.
    + intros H q [<-|Hq]; auto. apply IH; auto.
    + intros H. apply IH. auto.
Qed.

End WildcardFacts.

Section DiscoveryFacts.

(** The entries of the working directory, in the order [glob] scans it. *)
Variable listing : list string.

Variable glob : string -> list string.

(** What [glob.glob] returns for a pattern without bracket expression and
    without directory part. *)
Hypothesis glob_plain :
  forall pattern, plain pattern = true ->
                  glob pattern = glob_listing listing pattern.

Lemma get_file_head (extension : string) :
  get_file glob extension =
  match glob ("*." ++ extension) with
  | [] => inl IndexError
  | name :: _ => inr name
  end.
Proof.
  unfold get_file, getitem. destruct (glob ("*." ++ extension)); reflexivity.
Qed.

Lemma glob_found (extension : string) :
  plain extension = true ->
  glob ("*." ++ extension) =
  filter (fun name => negb (hidden name)
                      && wildcard_match ("*." ++ extension) name) listing.
Proof.
  intros Hp. rewrite glob_plain.
  - reflexivity.
  - unfold plain in *. simpl. exact Hp.
Qed.

Lemma found_spec (extension name : string) :
  negb (hidden name) && wildcard_match ("*." ++ extension) name = true <->
  found extension name.
Proof.
  unfold found. rewrite andb_true_iff, negb_true_iff. tauto.
Qed.

Lemma not_found_spec (extension name : string) :
  negb (hidden name) && wildcard_match ("*." ++ extension) name = false <->
  ~ found extension name.
Proof.
  rewrite <- found_spec.
  destruct (negb (hidden name) && wildcard_match ("*." ++ extension) name);
    split; intros H; auto; try discriminate. exfalso. auto.
Qed.

(** C9, amended: for an extension without bracket or slash, get_file
    returns the first entry of the working directory, in the order glob
    scans it, that is not hidden and matches the pattern "*.extension", in
    which a [*] or [?] of the extension is a wildcard; for an extension
    without wildcard these are the entries that do not start with a dot and
    end with ".extension".  When no entry is found the call fails, and the
    error is the IndexError of indexing the empty list. *)
Theorem get_file_first_found (extension : string) :
  plain extension = true ->
  (forall name,
     get_file glob extension = inr name <->
     exists before after,
       listing = before ++ name :: after /\
       found extension name /\
       forall q, In q before -> ~ found extension q) /\
  (get_file glob extension = inl IndexError <->
   forall q, In q listing -> ~ found extension q) /\
  (forall e, get_file glob extension = inl e -> e = IndexError) /\
  (literal extension = true ->
   forall name,
     found extension name <->
     hidden name = false /\
     exists stem, name = (stem ++ "." ++ extension)%string).
Proof.
  intros Hp. rewrite get_file_head, (glob_found extension Hp).
  set (f := fun name => negb (hidden name)
                        && wildcard_match ("*." ++ extension) name).
  split; [|split; [|split]].
  - intros name. split.
    + destruct (filter f listing) as [|x rest] eqn:Ef; [discriminate|].
      intros [= ->].
      destruct (proj1 (filter_head f listing name) (ex_intro _ rest Ef))
        as (before & after & Hl & Hx & Hb).
      exists before, after. split; [exact Hl|]. split.
      * apply found_spec. exact Hx.
      * intros q Hq. apply not_found_spec. apply Hb, Hq.
    + intros (before & after & Hl & Hx & Hb).
      destruct (proj2 (filter_head f listing name)) as [rest ->];
        [|reflexivity].
      exists before, after. split; [exact Hl|]. split.
      * apply found_spec. exact Hx.
      * intros q Hq. apply not_found_spec. apply Hb, Hq.
  - split.
    + destruct (filter f listing) as [|x rest] eqn:Ef; [|discriminate].
      intros _ q Hq. apply not_found_spec.
      apply (proj1 (filter_nil f listing) Ef q Hq).
    + intros H. rewrite (proj2 (filter_nil f listing)); [reflexivity|].
      intros q Hq. apply not_found_spec. apply H, Hq.
  - intros e. destruct (filter f listing); [|discriminate].
    intros [= <-]. reflexivity.
  - intros Hl name. unfold found.
    unfold literal in Hl. rewrite !andb_true_iff, !negb_true_iff in Hl.
    destruct Hl as [[_ Hs] Hq].
    change ("*." ++ extension)%string with (String "*" ("." ++ extension)).
    rewrite wildcard_suffix; [tauto| |]; simpl; assumption.
Qed.

End DiscoveryFacts.

(** ** The examples of the specification, and the theorems at work *)

Section Runs.

Import Examples.
Local Open Scope Q_scope.

Lemma obind_Some {A B : Type} (c : option A) (k : A -> option B) (b : B) :
  obind c k = Some b -> exists a, c = Some a /\ k a = Some b.
Proof. destruct c as [a|]; simpl; [eauto|discriminate]. Qed.

Lemma valid_timestampb_sound (t : Timestamp) :
  valid_timestampb t = true -> valid_timestamp t.
Proof.
  unfold valid_timestampb, valid_dateb, valid_timestamp, valid_date.
  rewrite !andb_true_iff, !Z.leb_le. tauto.
Qed.

(** The example parser only returns valid timestamps. *)
Lemma parse_feed_valid (s : string) (t : Timestamp) :
  parse_feed s = Parsed t -> valid_timestamp t.
Proof.
  unfold parse_feed. destruct (String.eqb s "" || String.eqb s "NaT");
    [discriminate|].
  destruct (parse_fields s) as [t0|] eqn:H; [|discriminate].
  intros [= ->]. unfold parse_fields in H.
  repeat (apply obind_Some in H;
          let a := fresh "a" in
          destruct H as (a & _ & H); try destruct a as [? ?]).
  match type of H with
  | (if valid_timestampb ?x then _ else _) = _ =>
      destruct (valid_timestampb x) eqn:E; [|discriminate]
  end.
  injection H as <-. apply valid_timestampb_sound, E.
Qed.

Lemma two_sessions_run :
  augment_data parse_feed two_sessions = (two_sessions_after, inr two_sessions_out).
Proof. vm_compute. reflexivity. Qed.

Lemma one_session_run :
  augment_data parse_feed one_session = (one_session_after, inr one_session_out).
Proof. vm_compute. reflexivity. Qed.

Lemma three_nights_run :
  augment_data parse_feed three_nights = (three_nights_after, inr three_nights_out).
Proof. vm_compute. reflexivity. Qed.

(** Both sessions of the first example belong to 2024-01-01, with 7 hours of
    sleep, one hour below the target. *)
Example two_sessions_merged :
  exists h delta,
    date_ two_sessions_out = [mkdate 2024 1 1] /\
    sleep_hours two_sessions_out = [h] /\ h == 7 /\
    Sleep_Delta two_sessions_out = [delta] /\ delta == -1 /\
    color two_sessions_out = ["lightcoral"%string].
Proof.
  eexists. eexists. repeat split; try reflexivity.
Qed.

Example one_session_on_target :
  exists h delta,
    date_ one_session_out = [mkdate 2024 1 5] /\
    sleep_hours one_session_out = [h] /\ h == 8 /\
    Sleep_Delta one_session_out = [delta] /\ delta == 0 /\
    color one_session_out = ["lightgreen"%string].
Proof.
  eexists. eexists. repeat split; try reflexivity.
Qed.


Lemma augment_dates_sorted_distinct_witness :
  StronglySorted date_lt (date_ three_nights_out) /\
  NoDup (date_ three_nights_out) /\
  (forall d, In d (date_ three_nights_out) <->
             In (Some d)
                [Some (mkdate 2024 3 2); Some (mkdate 2024 3 1);
                 Some (mkdate 2024 3 3); Some (mkdate 2024 3 3)]).
Proof.
  destruct (augment_dates_sorted_distinct parse_feed three_nights _ _
              three_nights_run) as (ds & Hds & H).
  vm_compute in Hds. injection Hds as <-. exact H.
Defined.



Lemma augment_color_witness :
  exists c,
    nth_error (color one_session_out) 0 = Some c /\
    c = "lightgreen"%string.
Proof.
  destruct (augment_color parse_feed one_session _ _ 0 (480 # 60)
              one_session_run eq_refl) as (c & Hc & _ & _ & Heq).
  exists c. split; [exact Hc|]. apply Heq. vm_compute. reflexivity.
Defined.

Lemma blank_start_run :
  augment_data parse_feed MoreExamples.blank_start =
    (MoreExamples.blank_start_after, inr MoreExamples.blank_start_out).
Proof. vm_compute. reflexivity. Qed.

Lemma augment_parse_failure_witness :
  augment_data parse_feed bad_row = (bad_row, inl DateParseError) /\
  exists ds,
    date_column MoreExamples.blank_start_after = Some (Dates ds) /\
    nth_error ds 1 = Some None.
Proof.
  split.
  - apply (augment_parse_failure parse_feed bad_row).
    exists (mkrow "yesterday" 30). split; [simpl; auto|reflexivity].
  - destruct (proj2 (proj2 (augment_parse_failure parse_feed
                              MoreExamples.blank_start))
                _ _ blank_start_run) as (ds & Hd & Hm).
    exists ds. split; [exact Hd|].
    apply (Hm 1%nat (mkrow "" 30)); reflexivity.
Defined.

(** C8 as stated fails on a row without start time: the blank cell is no
    timestamp, yet the call raises nothing and returns a frame, from which
    the row is left out. *)
Lemma augment_blank_start_returns :
  In (mkrow "" 30) (rows MoreExamples.blank_start) /\
  (forall t, parse_feed "" <> Parsed t) /\
  snd (augment_data parse_feed MoreExamples.blank_start) =
    inr MoreExamples.blank_start_out /\
  date_ MoreExamples.blank_start_out = [mkdate 2024 1 5] /\
  sleep_hours MoreExamples.blank_start_out = [480 / 60].
Proof.
  split; [simpl; auto|]. split; [intros t; discriminate|].
  repeat split.
Qed.


Lemma augment_mutates_argument_witness :
  date_column two_sessions = None /\
  date_column two_sessions_after =
    Some (Dates [Some (mkdate 2024 1 1); Some (mkdate 2024 1 1)]) /\
  sleep_hours_column two_sessions_after = Some [120 / 60; 300 / 60] /\
  two_sessions_after <> two_sessions.
Proof.
  destruct (augment_mutates_argument parse_feed two_sessions _ _
              two_sessions_run) as (ds & Hds & _ & _ & Hd & Hh & Hne).
  vm_compute in Hds. injection Hds as <-.
  split; [reflexivity|]. split; [exact Hd|]. split; [exact Hh|].
  apply Hne. left. reflexivity.
Defined.

Lemma get_file_first_found_witness :
  get_file (glob_listing [".x.csv"; "notes.txt"; "b.csv"; "a.csv"]%string)
           "csv" = inr "b.csv"%string /\
  get_file (glob_listing ["notes.txt"]%string) "csv" = inl IndexError.
Proof.
  split.
  - apply (get_file_first_found
             [".x.csv"; "notes.txt"; "b.csv"; "a.csv"]%string
             (glob_listing [".x.csv"; "notes.txt"; "b.csv"; "a.csv"]%string)
             (fun pattern _ => eq_refl) "csv" eq_refl).
    exists [".x.csv"; "notes.txt"]%string, ["a.csv"%string].
    split; [reflexivity|]. split; [split; reflexivity|].
    intros q [<-|[<-|[]]] [Hh Hm]; discriminate.
  - apply (get_file_first_found ["notes.txt"]%string
             (glob_listing ["notes.txt"]%string)
             (fun pattern _ => eq_refl) "csv" eq_refl).
    intros q [<-|[]] [Hh Hm]. discriminate.
Defined.

(** C9 as stated fails: for the extension "c*" the directory has no entry
    with that extension, yet the call does not fail and returns "a.csv";
    and where the call fails, the error is IndexError. *)
Lemma get_file_wildcard_extension :
  (forall q, In q ["a.csv"%string] ->
             ~ exists stem, q = (stem ++ ".c*")%string) /\
  get_file (glob_listing ["a.csv"%string]) "c*" = inr "a.csv"%string /\
  get_file (glob_listing ["notes.txt"%string]) "csv" = inl IndexError.
Proof.
  split; [|split; reflexivity].
  intros q [<-|[]] [stem H].
  repeat (destruct stem as [|? stem]; simpl in H;
          [congruence | first [discriminate H | injection H as _ H]]).
Qed.

End Runs.

(** ** Further properties of assign_sleep_day *)

Section AssignFacts.

(** X1: for any cut-off, also one outside [0,23], a valid timestamp that
    is not on 0001-01-01 is assigned a valid date that is its own date or
    the day before: never a later day, never more than one day earlier. *)
Theorem assign_sleep_day_within_one_day (bedtime : Timestamp) (cutoff_hour : Z) :
  valid_timestamp bedtime ->
  ts_date bedtime <> date_min ->
  exists d,
    assign_sleep_day bedtime cutoff_hour = inr d /\
    valid_date d /\
    toordinal (ts_date bedtime) - 1 <= toordinal d <= toordinal (ts_date bedtime).
Proof.
  intros Hv Hne.
  assert (Hd : exists d, assign_sleep_day bedtime cutoff_hour = inr d).
  { unfold assign_sleep_day.
    destruct ((0 <=? hour bedtime) && (hour bedtime <? cutoff_hour)).
    - apply sub_one_day_defined; [apply Hv|exact Hne].
    - eexists. reflexivity. }
  destruct Hd as [d Hd]. exists d. split; [exact Hd|].
  destruct (assign_sleep_day_cases _ _ _ Hv Hd) as [Hvd [->|Hord]];
    split; auto; lia.
Qed.

Lemma assign_sleep_day_within_one_day_witness :
  exists d,
    assign_sleep_day (mkts (mkdate 2024 3 1) 2 15 0) 4 = inr d /\
    valid_date d /\
    toordinal (mkdate 2024 3 1) - 1 <= toordinal d <= toordinal (mkdate 2024 3 1).
Proof.
  apply (assign_sleep_day_within_one_day (mkts (mkdate 2024 3 1) 2 15 0) 4);
    [solve_valid | discriminate].
Defined.

(** X2: the assignment keeps the order of days: a session that starts on an
    earlier calendar day is never assigned a later sleep day than a session
    that starts on a later calendar day. *)
Theorem assign_sleep_day_monotone (t1 t2 : Timestamp) (cutoff_hour : Z) (d1 d2 : date) :
  valid_timestamp t1 -> valid_timestamp t2 ->
  date_lt (ts_date t1) (ts_date t2) ->
  assign_sleep_day t1 cutoff_hour = inr d1 ->
  assign_sleep_day t2 cutoff_hour = inr d2 ->
  d1 = d2 \/ date_lt d1 d2.
Proof.
  intros Hv1 Hv2 Hlt H1 H2.
  pose proof (toordinal_lt _ _ (proj1 Hv1) (proj1 Hv2) Hlt) as Hord.
  destruct (assign_sleep_day_cases _ _ _ Hv1 H1) as [Hvd1 C1].
  destruct (assign_sleep_day_cases _ _ _ Hv2 H2) as [Hvd2 C2].
  assert (Hle : toordinal d1 <= toordinal d2)
    by (destruct C1 as [->|C1], C2 as [->|C2]; lia).
  destruct (date_trichotomy d1 d2) as [H|[H|H]]; auto.
  pose proof (toordinal_lt _ _ Hvd2 Hvd1 H). lia.
Qed.

Lemma assign_sleep_day_monotone_witness :
  mkdate 2024 2 29 = mkdate 2024 2 29 \/
  date_lt (mkdate 2024 2 29) (mkdate 2024 2 29).
Proof.
  apply (assign_sleep_day_monotone
           (mkts (mkdate 2024 2 29) 23 30 0) (mkts (mkdate 2024 3 1) 1 10 0) 4);
    [solve_valid | solve_valid | reflexivity | reflexivity | reflexivity].
Defined.

End AssignFacts.

(** ** Further properties of grouping *)

Section GroupFacts.

Local Open Scope Q_scope.
Local Open Scope nat_scope.

Lemma add_to_group_length (d : date) (h : Q) (g : list (date * Q)) :
  length g <= length (add_to_group d h g) <= S (length g) /\
  1 <= length (add_to_group d h g).
Proof.
  induction g as [|[k s] g IH]; simpl.
  - lia.
  - destruct (date_ltb d k); simpl; [lia|].
    destruct (date_eqb d k); simpl; lia.
Qed.

Lemma fold_add_length (l g : list (date * Q)) :
  length g <= length (fold_left add_row l g) <= length l + length g /\
  (l <> [] -> 1 <= length (fold_left add_row l g)).
Proof.
  revert g. induction l as [|p l IH]; intros g; simpl.
  - split; [lia|]. intros H. congruence.
  - destruct (IH (add_row g p)) as [[H1 H2] _].
    pose proof (add_to_group_length (fst p) (snd p) g) as [H3 H4].
    unfold add_row in *. split; [lia|]. intros _. lia.
Qed.

Lemma Qsum_nonneg (l : list Q) :
  Forall (fun x => 0 <= x)%Q l -> (0 <= Qsum l)%Q.
Proof.
  induction 1 as [|x l Hx Hl IH]; simpl.
  - apply Qle_refl.
  - replace 0%Q with (0 + 0)%Q by reflexivity. apply Qplus_le_compat; auto.
Qed.

Lemma add_to_group_nonneg (d : date) (h : Q) (g : list (date * Q)) :
  (0 <= h)%Q ->
  Forall (fun x => 0 <= x)%Q (map snd g) ->
  Forall (fun x => 0 <= x)%Q (map snd (add_to_group d h g)).
Proof.
  intros Hh. induction g as [|[k s] g IH]; simpl; intros Hg.
  - constructor; auto.
  - inversion Hg as [|? ? Hs Hg']; subst.
    destruct (date_ltb d k); simpl; [constructor; auto|].
    destruct (date_eqb d k); simpl; constructor; auto.
    replace 0%Q with (0 + 0)%Q by reflexivity. apply Qplus_le_compat; auto.
Qed.

Lemma fold_add_nonneg (l g : list (date * Q)) :
  Forall (fun x => 0 <= x)%Q (map snd l) ->
  Forall (fun x => 0 <= x)%Q (map snd g) ->
  Forall (fun x => 0 <= x)%Q (map snd (fold_left add_row l g)).
Proof.
  revert g. induction l as [|p l IH]; intros g Hl Hg; simpl; auto.
  inversion Hl; subst. apply IH; auto.
  apply add_to_group_nonneg; auto.
Qed.

End GroupFacts.

(** ** Further properties of augment_data *)

Section AugmentExtras.

Variable parse_datetime : string -> parsed.

Local Open Scope Q_scope.
Local Open Scope nat_scope.

Lemma derive_columns_lengths (g : list (date * Q)) :
  let out := derive_columns g in
  length (date_ out) = length g /\
  length (sleep_hours out) = length g /\
  length (Sleep_Delta out) = length g /\
  length (rolling_14d_debt out) = length g /\
  length (color out) = length g /\
  length (rolling_7d_sleep out) = length g.
Proof.
  unfold derive_columns, rolling_sum, rolling_mean. cbn [date_ sleep_hours
    Sleep_Delta rolling_14d_debt color rolling_7d_sleep].
  rewrite !length_map, !roll_length, !length_map. auto 10.
Qed.

Lemma dropna_length (l : list (option date * Q)) :
  length (dropna l) <= length l.
Proof.
  induction l as [|[[d|] h] l IH]; simpl; lia.
Qed.

Lemma dropna_values (ds : list (option date)) (hs : list Q) (x : Q) :
  In x (map snd (dropna (combine ds hs))) -> In x hs.
Proof.
  revert hs. induction ds as [|[d|] ds IH]; intros [|h hs]; simpl; try tauto.
  - intros [<-|H]; auto.
  - intros H. auto.
Qed.

(** X3: the columns of the returned frame are aligned: all six have one
    entry per sleep night.  There are at most as many nights as raw rows,
    and none exactly when no row has a date, all cells being NaT or the
    frame being empty. *)
Theorem augment_columns_aligned (df df' : DataFrame) (out : SleepFrame) :
  augment_data parse_datetime df = (df', inr out) ->
  length (sleep_hours out) = length (date_ out) /\
  length (Sleep_Delta out) = length (date_ out) /\
  length (rolling_14d_debt out) = length (date_ out) /\
  length (color out) = length (date_ out) /\
  length (rolling_7d_sleep out) = length (date_ out) /\
  length (date_ out) <= length (rows df) /\
  exists ds,
    assigned_dates parse_datetime df = inr ds /\
    (length (date_ out) = 0 <-> forall d, ~ In (Some d) ds).
Proof.
  intros H. destruct (augment_success _ _ _ _ H) as (ds & Hds & Hlen & _ & ->).
  destruct (derive_columns_lengths (groupby_sum ds (hours_of df)))
    as (Hd & -> & -> & -> & -> & ->).
  assert (Hrows : length (combine ds (hours_of df)) = length (rows df)).
  { rewrite length_combine, Hlen. unfold hours_of. rewrite length_map. lia. }
  pose proof (dropna_length (combine ds (hours_of df))) as Hdrop.
  destruct (fold_add_length (dropna (combine ds (hours_of df))) [])
    as [[_ Hle] Hpos].
  fold (groupby_sum ds (hours_of df)) in Hle, Hpos. simpl in Hle.
  repeat split; auto; try lia.
  exists ds. split; [exact Hds|]. rewrite Hd. split.
  - intros H0 d Hin. apply (dropna_keys ds (hours_of df) d Hlen) in Hin.
    destruct (dropna (combine ds (hours_of df))) as [|p l]; [destruct Hin|].
    assert (1 <= length (groupby_sum ds (hours_of df)))
      by (apply Hpos; discriminate).
    lia.
  - intros Hnone.
    destruct (dropna (combine ds (hours_of df))) as [|[d h] l] eqn:E.
    + unfold groupby_sum. rewrite E. reflexivity.
    + exfalso. apply (Hnone d).
      apply (dropna_keys ds (hours_of df) d Hlen). rewrite E. simpl. auto.
Qed.

(** X5: the returned frame depends on the rows only, and a second call on
    the frame the first call left behind changes nothing: it returns the
    same frame and leaves the caller's frame as it is. *)
Theorem augment_rerun (df df' : DataFrame) (out : SleepFrame) :
  augment_data parse_datetime df = (df', inr out) ->
  augment_data parse_datetime df' = (df', inr out) /\
  (forall df2, rows df2 = rows df ->
     augment_data parse_datetime df2 = (df', inr out)).
Proof.
  intros H.
  assert (G : forall df2, rows df2 = rows df ->
                augment_data parse_datetime df2 = (df', inr out)).
  { intros df2 E. revert H. unfold augment_data, hours_of, set_sleep_hours, set_date.
    cbn [rows date_column sleep_hours_column]. rewrite E.
    destruct (to_datetime parse_datetime (map Start_Time (rows df)));
      [discriminate|].
    destruct (apply _ l); [discriminate|]. auto. }
  split; [|exact G]. apply G.
  destruct (augment_success _ _ _ _ H) as (ds & _ & _ & -> & _). reflexivity.
Qed.

Lemma In_firstn {A : Type} (n : nat) (l : list A) (x : A) :
  In x (firstn n l) -> In x l.
Proof.
  revert l. induction n as [|n IH]; intros [|a l]; simpl; try tauto.
  intros [->|H]; auto.
Qed.

Lemma In_skipn {A : Type} (n : nat) (l : list A) (x : A) :
  In x (skipn n l) -> In x l.
Proof.
  revert l. induction n as [|n IH]; intros [|a l]; simpl; auto.
Qed.

Lemma In_trailing {A : Type} (w k : nat) (l : list A) (x : A) :
  In x (trailing w k l) -> In x l.
Proof. unfold trailing. intros H. eapply In_skipn, In_firstn, H. Qed.

(** X7: when no raw row has a negative duration, no night of the returned
    frame has negative sleep_hours or a negative 7-night average. *)
Theorem augment_nonnegative (df df' : DataFrame) (out : SleepFrame) :
  augment_data parse_datetime df = (df', inr out) ->
  (forall r, In r (rows df) -> (0 <= Time_Asleep r)%Q) ->
  (forall h, In h (sleep_hours out) -> (0 <= h)%Q) /\
  (forall m, In (Some m) (rolling_7d_sleep out) -> (0 <= m)%Q).
Proof.
  intros H Hpos. destruct (augment_success _ _ _ _ H) as (ds & _ & Hlen & _ & ->).
  assert (Hhs : Forall (fun x => 0 <= x)%Q
                  (sleep_hours (derive_columns (groupby_sum ds (hours_of df))))).
  { rewrite derive_columns_hours. apply fold_add_nonneg; [|constructor].
    apply Forall_forall. intros x Hx. apply dropna_values in Hx.
    unfold hours_of in Hx. apply in_map_iff in Hx.
    destruct Hx as (r & <- & Hr). apply Qle_shift_div_l; [reflexivity|].
    rewrite Qmult_0_l. auto. }
  split; [apply Forall_forall, Hhs|].
  intros m Hm. apply In_nth_error in Hm. destruct Hm as [k Hk].
  assert (Hklt : k < length (sleep_hours (derive_columns (groupby_sum ds (hours_of df))))).
  { destruct (derive_columns_lengths (groupby_sum ds (hours_of df)))
      as (_ & -> & _ & _ & _ & <-).
    apply nth_error_Some. congruence. }
  rewrite derive_columns_hours in Hklt, Hhs.
  destruct (rolling_mean_spec 7 _ k ltac:(lia) Hklt) as (m' & Hm' & Hmean).
  unfold derive_columns in Hk. cbn [rolling_7d_sleep] in Hk.
  rewrite Hk in Hm'. injection Hm' as <-.
  rewrite Hmean, trailing_length by exact Hklt.
  apply Qle_shift_div_l.
  - unfold Qlt. simpl. lia.
  - rewrite Qmult_0_l. apply Qsum_nonneg.
    apply Forall_forall. intros x Hx. apply In_trailing in Hx.
    revert x Hx. apply Forall_forall, Hhs.
Qed.

End AugmentExtras.

(** ** The two rolling columns, the figure and the script *)

Section FigureFacts.

Variable parse_datetime : string -> parsed.

Local Open Scope Q_scope.
Local Open Scope nat_scope.



Lemma derive_columns_color (g : list (date * Q)) (i : nat) (h : Q) :
  nth_error (sleep_hours (derive_columns g)) i = Some h ->
  exists c,
    nth_error (color (derive_columns g)) i = Some c /\
    (c = "lightcoral"%string <-> (h < TARGET_SLEEP)%Q) /\
    (c = "lightgreen"%string <-> ~ (h < TARGET_SLEEP)%Q).
Proof.
  unfold derive_columns. cbn [sleep_hours color]. intros Hh.
  rewrite nth_error_map, Hh. cbn [option_map].
  eexists. split; [reflexivity|].
  pose proof (Qltb_lt h TARGET_SLEEP) as Hlt.
  destruct (Qltb h TARGET_SLEEP).
  - assert (h < TARGET_SLEEP)%Q by (apply Hlt; reflexivity).
    split; split; auto; try discriminate. intros Hn. contradiction.
  - assert (~ (h < TARGET_SLEEP)%Q) by (intros Hc; apply Hlt in Hc; discriminate).
    split; split; auto; try discriminate. intros Hc. contradiction.
Qed.

Lemma roll_min_periods (w : nat) (xs : list Q) (o : option Q) :
  1 <= w ->
  In o (rolling_sum w 1 xs) \/ In o (rolling_mean w 1 xs) -> o <> None.
Proof.
  intros Hw [Hin|Hin]; apply In_nth_error in Hin; destruct Hin as [k Hk].
  - assert (Hlt : k < length xs).
    { assert (k < length (rolling_sum w 1 xs)) by (apply nth_error_Some; congruence).
      unfold rolling_sum in H. rewrite length_map, roll_length in H. exact H. }
    destruct (rolling_sum_spec w xs k Hw Hlt) as (s & Hs & _). congruence.
  - assert (Hlt : k < length xs).
    { assert (k < length (rolling_mean w 1 xs)) by (apply nth_error_Some; congruence).
      unfold rolling_mean in H. rewrite length_map, roll_length in H. exact H. }
    destruct (rolling_mean_spec w xs k Hw Hlt) as (s & Hs & _). congruence.
Qed.

(** X9: the figure drawn from a returned frame is well formed: each of its
    three traces has the dates of the frame as x values and exactly one y
    value per date, the bars have one colour each, and the two lines have no
    missing (NaN) point. *)
Theorem sleep_figure_well_formed (df df' : DataFrame) (out : SleepFrame) :
  augment_data parse_datetime df = (df', inr out) ->
  length (data (sleep_figure out)) = 3 /\
  forall t, In t (data (sleep_figure out)) ->
    trace_x t = date_ out /\
    trace_points t = length (date_ out) /\
    match t with
    | Bar _ y marker_color _ => length marker_color = length y
    | Scatter _ y _ _ _ _ => forall v, In v y -> v <> None
    end.
Proof.
  intros H. destruct (augment_success _ _ _ _ H) as (ds & _ & _ & _ & ->).
  set (g := groupby_sum ds (hours_of df)).
  destruct (derive_columns_lengths g) as (Hd & Hh & _ & Hdebt & Hc & Havg).
  split; [reflexivity|].
  intros t [<-|[<-|[<-|[]]]]; cbn [trace_x trace_points];
    (split; [reflexivity|]); (split; [congruence|]).
  - congruence.
  - intros v Hv. apply (roll_min_periods 7 (map snd g)); [lia|auto].
  - intros v Hv.
    apply (roll_min_periods 14
             (map Qopp (map (fun h => (h - TARGET_SLEEP)%Q) (map snd g))));
      [lia|auto].
Qed.

(** X10: in the figure drawn from a returned frame, the bars coloured
    "lightcoral" are exactly the bars lower than the horizontal reference
    line, and all other bars are "lightgreen". *)
Theorem sleep_figure_bar_colors (df df' : DataFrame) (out : SleepFrame) :
  augment_data parse_datetime df = (df', inr out) ->
  forall x y marker_color name line i h,
    In (Bar x y marker_color name) (data (sleep_figure out)) ->
    In line (hlines (sleep_figure out)) ->
    nth_error y i = Some h ->
    exists c,
      nth_error marker_color i = Some c /\
      (c = "lightcoral"%string <-> (h < hline_y line)%Q) /\
      (c = "lightgreen"%string <-> ~ (h < hline_y line)%Q).
Proof.
  intros H x y mc name line i h Hbar Hline Hh.
  destruct (augment_success _ _ _ _ H) as (ds & _ & _ & _ & ->).
  destruct Hline as [<-|[]]. cbn [hline_y].
  destruct Hbar as [E|[E|[E|[]]]]; try discriminate.
  injection E as <- <- <- <-.
  apply derive_columns_color, Hh.
Qed.

End FigureFacts.

Section ScriptFacts.

Variable glob : string -> list string.
Variable E : Type.
Variable read_csv : string -> E + DataFrame.
Variable parse_datetime : string -> parsed.

(** X11: a figure is shown only by a run in which every stage succeeded:
    the run then ends without error, it has read the first file that glob
    found for "*.csv" and no other, and the one figure it shows is the
    figure of the frame that augment_data returned for that file. *)
Theorem main_shows_figure (fig : Figure) :
  In (Show fig) (fst (main glob E read_csv parse_datetime)) ->
  snd (main glob E read_csv parse_datetime) = None /\
  exists path others df df' out,
    glob "*.csv" = path :: others /\
    read_csv path = inr df /\
    augment_data parse_datetime df = (df', inr out) /\
    fst (main glob E read_csv parse_datetime) = [ReadCsv path; Show (sleep_figure out)] /\
    fig = sleep_figure out.
Proof.
  unfold main, get_file, getitem.
  change ("*." ++ "csv")%string with "*.csv"%string.
  destruct (glob "*.csv") as [|path others] eqn:Eg; cbn [nth_error ret raise fst snd].
  { intros []. }
  destruct (read_csv path) as [e|df] eqn:Er; cbn [fst snd].
  { intros [Hc|[]]. discriminate. }
  destruct (augment_data parse_datetime df) as [df' [e|out]] eqn:Ea; cbn [fst snd].
  { intros [Hc|[]]. discriminate. }
  unfold plot_sleep_data. intros [Hc|[Hc|[]]]; [discriminate|].
  injection Hc as <-. split; [reflexivity|].
  exists path, others, df, df', out. auto.
Qed.

(** X12: a run that ends with an error shows nothing and reads at most the
    first "*.csv" file.  Without such a file the error is IndexError and
    nothing is read; a start time in the file that is a string but no
    timestamp ends the run with the parse error of pd.to_datetime. *)
Theorem main_failure (err : script_error E) :
  snd (main glob E read_csv parse_datetime) = Some err ->
  (forall fig, ~ In (Show fig) (fst (main glob E read_csv parse_datetime))) /\
  (glob "*.csv" = [] ->
   fst (main glob E read_csv parse_datetime) = [] /\ err = Raised IndexError) /\
  (forall path others, glob "*.csv" = path :: others ->
     fst (main glob E read_csv parse_datetime) = [ReadCsv path] /\
     (forall df, read_csv path = inr df ->
        (exists r, In r (rows df) /\ parse_datetime (Start_Time r) = Invalid) ->
        err = Raised DateParseError)).
Proof.
  unfold main, get_file, getitem.
  change ("*." ++ "csv")%string with "*.csv"%string.
  destruct (glob "*.csv") as [|path others] eqn:Eg; cbn [nth_error ret raise fst snd].
  { intros [= <-]. split; [intros fig []|]. split; [auto|].
    intros p o Hc. discriminate Hc. }
  destruct (read_csv path) as [e|df] eqn:Er; cbn [fst snd].
  { intros [= <-]. split; [intros fig [Hc|[]]; discriminate|].
    split; [discriminate|]. intros p o [= <- <-]. split; [reflexivity|].
    intros df Hdf. congruence. }
  destruct (augment_data parse_datetime df) as [df' [e|out]] eqn:Ea; cbn [fst snd];
    [|discriminate].
  intros [= <-]. split; [intros fig [Hc|[]]; discriminate|].
  split; [discriminate|]. intros p o [= <- <-]. split; [reflexivity|].
  intros df0 Hdf (r & Hin & Hr). rewrite Er in Hdf. injection Hdf as <-.
  unfold augment_data in Ea.
  rewrite (to_datetime_invalid parse_datetime (map Start_Time (rows df))
             (Start_Time r) (in_map Start_Time _ _ Hin) Hr) in Ea.
  injection Ea as _ <-. reflexivity.
Qed.

End ScriptFacts.

(** ** The order of the raw rows *)

Section RowOrder.

Variable parse_datetime : string -> parsed.

(** Reordering the rows reorders the (date, hours) pairs alike. *)
Lemma assigned_permutation (l l' : list RawRow) :
  Permutation l l' ->
  forall ds, Forall2 (row_assigned parse_datetime) l ds ->
  exists ds',
    Forall2 (row_assigned parse_datetime) l' ds' /\
    Permutation
      (combine ds (map (fun r => (Time_Asleep r / 60)%Q) l))
      (combine ds' (map (fun r => (Time_Asleep r / 60)%Q) l')).
Proof.
  induction 1 as [|r l l' Hp IH|r1 r2 l|l l' l'' _ IH1 _ IH2]; intros ds Hds.
  - inversion Hds; subst. exists []. split; constructor.
  - inversion Hds as [|? d ? ds0 Hd Hds0]; subst.
    destruct (IH ds0 Hds0) as (ds' & H1 & H2).
    exists (d :: ds'). split; [constructor; auto|].
    simpl. apply perm_skip, H2.
  - inversion Hds as [|? d1 ? ds0 Hd1 Hds0]; subst.
    inversion Hds0 as [|? d2 ? ds1 Hd2 Hds1]; subst.
    exists (d2 :: d1 :: ds1). split; [repeat constructor; auto|].
    simpl. apply perm_swap.
  - destruct (IH1 ds Hds) as (ds' & H1 & H2).
    destruct (IH2 ds' H1) as (ds'' & H3 & H4).
    exists ds''. split; [exact H3|]. eapply perm_trans; eauto.
Qed.

Lemma dropna_permutation (l l' : list (option date * Q)) :
  Permutation l l' -> Permutation (dropna l) (dropna l').
Proof.
  induction 1 as [|[[d|] h] l l' _ IH|[[d1|] h1] [[d2|] h2] l|l l' l'' _ IH1 _ IH2];
    simpl; auto.
  - apply perm_swap.
  - eapply perm_trans; eauto.
Qed.

(** Two strictly ascending lists with the same members are equal. *)
Lemma sorted_same_members (l1 l2 : list date) :
  StronglySorted date_lt l1 -> StronglySorted date_lt l2 ->
  (forall x, In x l1 <-> In x l2) -> l1 = l2.
Proof.
  revert l2. induction l1 as [|a1 l1 IH]; intros [|a2 l2] H1 H2 Hm.
  - reflexivity.
  - destruct (proj2 (Hm a2) (or_introl eq_refl)).
  - destruct (proj1 (Hm a1) (or_introl eq_refl)).
  - inversion H1 as [|? ? S1 F1]; inversion H2 as [|? ? S2 F2]; subst.
    rewrite Forall_forall in F1, F2.
    assert (Ea : a1 = a2).
    { destruct (proj1 (Hm a1) (or_introl eq_refl)) as [E|Hin1]; [auto|].
      destruct (proj2 (Hm a2) (or_introl eq_refl)) as [E|Hin2]; [auto|].
      exfalso. apply (date_lt_irrefl a1).
      exact (date_ltb_trans a1 a2 a1 (F1 a2 Hin2) (F2 a1 Hin1)). }
    subst a2. f_equal. apply IH; auto.
    intros x. split; intros Hx.
    + destruct (proj1 (Hm x) (or_intror Hx)) as [<-|Hx2]; [|exact Hx2].
      exfalso. exact (date_lt_irrefl a1 (F1 a1 Hx)).
    + destruct (proj2 (Hm x) (or_intror Hx)) as [<-|Hx1]; [|exact Hx1].
      exfalso. exact (date_lt_irrefl a1 (F2 a1 Hx)).
Qed.

(** Grouping a reordered list of rows gives the same keys in the same
    order. *)
Lemma fold_add_permutation (l l' : list (date * Q)) :
  Permutation l l' ->
  map fst (fold_left add_row l []) = map fst (fold_left add_row l' []).
Proof.
  intros Hp. apply sorted_same_members.
  - apply fold_add_sorted. constructor.
  - apply fold_add_sorted. constructor.
  - intros x. rewrite !fold_add_keys. simpl.
    split; intros [H|[]]; left;
      [apply (Permutation_in x (Permutation_map fst Hp) H)
      |apply (Permutation_in x (Permutation_map fst (Permutation_sym Hp)) H)].
Qed.

(** X13: the order of the raw rows does not change which nights the
    returned frame has, nor their order: when a call returns, the call on
    any reordering of the rows returns too, with the same date column. *)
Theorem augment_row_order (df1 df2 df1' : DataFrame) (out1 : SleepFrame) :
  Permutation (rows df1) (rows df2) ->
  augment_data parse_datetime df1 = (df1', inr out1) ->
  exists df2' out2,
    augment_data parse_datetime df2 = (df2', inr out2) /\
    date_ out1 = date_ out2.
Proof.
  intros Hp H.
  destruct (augment_success _ _ _ _ H) as (ds & Hds & _ & _ & ->).
  apply assigned_dates_rows in Hds.
  destruct (assigned_permutation _ _ Hp ds Hds) as (ds' & Hds' & Hperm).
  rewrite (augment_of_rows parse_datetime df2 ds' Hds').
  eexists. eexists. split; [reflexivity|].
  rewrite !derive_columns_dates. unfold groupby_sum.
  apply fold_add_permutation, dropna_permutation, Hperm.
Qed.

End RowOrder.

(** ** The further properties at work *)

Section MoreRuns.

Import Examples MoreExamples.
Local Open Scope Q_scope.

Lemma augment_columns_aligned_witness :
  length (sleep_hours three_nights_out) = length (date_ three_nights_out) /\
  length (Sleep_Delta three_nights_out) = length (date_ three_nights_out) /\
  length (rolling_14d_debt three_nights_out) = length (date_ three_nights_out) /\
  length (color three_nights_out) = length (date_ three_nights_out) /\
  length (rolling_7d_sleep three_nights_out) = length (date_ three_nights_out) /\
  (length (date_ three_nights_out) <= length (rows three_nights))%nat /\
  exists ds,
    assigned_dates parse_feed three_nights = inr ds /\
    (length (date_ three_nights_out) = 0%nat <-> forall d, ~ In (Some d) ds).
Proof.
  exact (augment_columns_aligned parse_feed three_nights _ _ three_nights_run).
Defined.

Lemma augment_rerun_witness :
  augment_data parse_feed two_sessions_after =
    (two_sessions_after, inr two_sessions_out).
Proof.
  exact (proj1 (augment_rerun parse_feed two_sessions _ _ two_sessions_run)).
Defined.

Lemma augment_nonnegative_witness :
  (forall h, In h (sleep_hours three_nights_out) -> 0 <= h) /\
  (forall m, In (Some m) (rolling_7d_sleep three_nights_out) -> 0 <= m).
Proof.
  apply (augment_nonnegative parse_feed three_nights _ _ three_nights_run).
  intros r Hr. simpl in Hr.
  destruct Hr as [<-|[<-|[<-|[<-|[]]]]]; vm_compute; discriminate.
Defined.


Lemma sleep_figure_well_formed_witness :
  length (data (sleep_figure three_nights_out)) = 3%nat /\
  forall t, In t (data (sleep_figure three_nights_out)) ->
    trace_x t = date_ three_nights_out /\
    trace_points t = length (date_ three_nights_out) /\
    match t with
    | Bar _ y marker_color _ => length marker_color = length y
    | Scatter _ y _ _ _ _ => forall v, In v y -> v <> None
    end.
Proof.
  exact (sleep_figure_well_formed parse_feed three_nights _ _ three_nights_run).
Defined.

Lemma sleep_figure_bar_colors_witness :
  exists c,
    nth_error (color one_session_out) 0 = Some c /\
    (c = "lightcoral"%string <-> (480 # 60) < TARGET_SLEEP) /\
    (c = "lightgreen"%string <-> ~ (480 # 60) < TARGET_SLEEP).
Proof.
  apply (sleep_figure_bar_colors parse_feed one_session _ _ one_session_run
           (date_ one_session_out) (sleep_hours one_session_out)
           (color one_session_out) "Sleep Hours"%string
           (mkhline TARGET_SLEEP "dash" "orange" "Target Sleep") 0 (480 # 60)).
  - left. reflexivity.
  - left. reflexivity.
  - reflexivity.
Defined.

Lemma main_shows_figure_witness :
  snd (main (glob_listing listing) unit read_listing parse_feed) = None /\
  exists path others df df' out,
    glob_listing listing "*.csv" = path :: others /\
    read_listing path = inr df /\
    augment_data parse_feed df = (df', inr out) /\
    fst (main (glob_listing listing) unit read_listing parse_feed) =
      [ReadCsv path; Show (sleep_figure out)] /\
    sleep_figure three_nights_out = sleep_figure out.
Proof.
  apply (main_shows_figure (glob_listing listing) unit read_listing parse_feed
           (sleep_figure three_nights_out)).
  vm_compute. right. left. reflexivity.
Defined.

Lemma main_failure_witness :
  (forall fig,
     ~ In (Show fig)
          (fst (main (glob_listing ["old.csv"; "sleep.csv"]%string) unit
                     read_listing parse_feed))) /\
  (forall fig,
     ~ In (Show fig)
          (fst (main (glob_listing ["notes.txt"]%string) unit
                     read_listing parse_feed))).
Proof.
  split.
  - apply (main_failure (glob_listing ["old.csv"; "sleep.csv"]%string) unit
             read_listing parse_feed (Raised DateParseError)).
    vm_compute. reflexivity.
  - apply (main_failure (glob_listing ["notes.txt"]%string) unit
             read_listing parse_feed (Raised IndexError)).
    vm_compute. reflexivity.
Defined.

Lemma augment_row_order_witness :
  exists df2' out2,
    augment_data parse_feed three_nights_shuffled = (df2', inr out2) /\
    date_ three_nights_out = date_ out2.
Proof.
  apply (augment_row_order parse_feed three_nights three_nights_shuffled _ _
           (Permutation_rev (rows three_nights)) three_nights_run).
Defined.

End MoreRuns.
